(** * GPTMail client: a shallow embedding of [core/gptmail_client.py]

    The client calls four things outside itself: the mail provider
    (through [requests.request]), the clock (through [time.sleep]), the
    caller's log callback and the code extractor of [core.mail_utils].
    Each such call is recorded as an event of a trace, oldest first, and
    the answers of the outside world come from an environment of oracles.
    Python exceptions are an explicit outcome; the state a call has built
    up is kept when it raises, as in Python.

    The log callback is seen through its invocations only: what it raises
    is swallowed by [_log], and it is taken not to touch the client.  The
    extractor is taken to be a pure function that returns, as its contract
    says. *)

From Stdlib Require Import List ZArith String Ascii Bool Lia Arith.
Import ListNotations.
Local Open Scope string_scope.
Local Open Scope Z_scope.
Set Warnings "-register-all".

(** ** Python values *)

(** What [res.json()] can return.  A dict is an association list in which
    the first binding of a key is the one that counts; JSON numbers are
    integers here (a float is falsy exactly when it is zero, like an int). *)
Inductive json : Type :=
| JNull
| JBool (b : bool)
| JNum (n : Z)
| JStr (s : string)
| JArr (items : list json)
| JObj (fields : list (string * json)).

(** Python's [None]. *)
Definition None_ : json := JNull.

(** [bool(v)]: what [if v:] tests. *)
Definition truthy (v : json) : bool :=
  match v with
  | JNull => false
  | JBool b => b
  | JNum n => negb (n =? 0)
  | JStr s => negb (s =? "")%string
  | JArr items => match items with [] => false | _ :: _ => true end
  | JObj fields => match fields with [] => false | _ :: _ => true end
  end.

(** Truthiness of an [Optional[str]]. *)
Definition truthy_str (v : option string) : bool :=
  match v with
  | None => false
  | Some s => negb (s =? "")%string
  end.

Fixpoint lookup (k : string) (fields : list (string * json)) : option json :=
  match fields with
  | [] => None
  | (k', v) :: rest => if (k =? k')%string then Some v else lookup k rest
  end.

(** The exceptions the client can meet; all are subclasses of [Exception]. *)
Inductive exn : Type :=
| ZeroDivisionError
| ValueError
| TypeError
| KeyError (key : string)
| AttributeError
| JSONDecodeError
| RequestException (what : string).

(** ** Requests, responses, events *)

Record request : Type := mkRequest {
  req_method : string;
  req_url : string;
  req_headers : list (string * string);
  req_json : option json;
  req_params : option (list (string * json));
  req_timeout : Z
}.

(** A [requests.Response]: the status code and the decoded body, [None]
    when [res.json()] raises. *)
Record response : Type := mkResponse {
  status_code : Z;
  body : option json
}.

(** What [requests.request] does: it raises or it returns a response. *)
Inductive http_outcome : Type :=
| Fails (e : exn)
| Answers (res : response).

Inductive level : Type := info | error.

(** The messages of the source, one constructor per f-string. *)
Inductive message : Type :=
| MsgSending (method url : string)
| MsgNetworkFailed (e : exn)
| MsgRequestingDomain (domain : string)
| MsgRequestingRandom
| MsgEmailGenerated (email : json)
| MsgApiError (err : json)
| MsgRequestFailed (status : Z)
| MsgRegistrationException (e : exn)
| MsgNoEmail
| MsgPolling (timeout : Z)
| MsgPollingTimedOut (timeout : Z)
| MsgCodeFound (code : string)
| MsgFetchError (e : exn).

Inductive event : Type :=
| EvLog (lvl : level) (m : message)      (* the log callback is invoked *)
| EvRequest (r : request)                (* requests.request is called *)
| EvSleep (seconds : Z)                  (* time.sleep is called *)
| EvExtract (text : string).             (* extract_verification_code is called *)

(** ** The client and the world around it *)

Record GPTMailClient : Type := mkClient {
  base_url : string;
  api_key : string;
  log_callback : bool;                   (* is a callback configured? *)
  email : json                           (* [None_] until registration succeeds *)
}.

Record state : Type := mkState {
  self : GPTMailClient;
  requests_made : nat;                   (* calls of requests.request so far *)
  draws_made : nat;                      (* random draws consumed so far *)
  trace : list event                     (* oldest event first *)
}.

(** What the code takes from outside this file.  [strptime] is
    [datetime.strptime(_, "%Y-%m-%d %H:%M:%S")] on a string ([None]:
    [ValueError]); [before t s] is [t < s] for a parsed time [t] and the
    caller's [since_time] ([None]: [TypeError], the two do not compare);
    [extract_verification_code] is the function of [core.mail_utils];
    [provider n r] is the outcome of the [n]-th call of [requests.request];
    [draw n] is the [n]-th raw draw of the random generator. *)
Record Env : Type := mkEnv {
  datetime : Type;
  since : Type;
  strptime : string -> option datetime;
  before : datetime -> since -> option bool;
  extract_verification_code : string -> option string;
  provider : nat -> request -> http_outcome;
  draw : nat -> nat
}.

(** ** A state and exception monad *)

Inductive outcome (A : Type) : Type :=
| Return (a : A)
| Raise (e : exn).
Arguments Return {A} a.
Arguments Raise {A} e.

Definition M (A : Type) : Type := state -> outcome A * state.

Definition ret {A} (a : A) : M A := fun st => (Return a, st).

Definition raise {A} (e : exn) : M A := fun st => (Raise e, st).

Definition bind {A B} (m : M A) (k : A -> M B) : M B :=
  fun st =>
    match m st with
    | (Return a, st') => k a st'
    | (Raise e, st') => (Raise e, st')
    end.

Declare Scope py_scope.
Delimit Scope py_scope with py.
Notation "x <- m ;; k" := (bind m (fun x => k))
  (at level 100, m at next level, right associativity) : py_scope.
Notation "m ;; k" := (bind m (fun _ => k))
  (at level 100, right associativity) : py_scope.
Local Open Scope py_scope.

(** [try: body except <cls> as e: handler e]. *)
Definition try_except {A} (cls : exn -> bool) (body : M A) (handler : exn -> M A) : M A :=
  fun st =>
    match body st with
    | (Return a, st') => (Return a, st')
    | (Raise e, st') => if cls e then handler e st' else (Raise e, st')
    end.

Definition Exception (e : exn) : bool := true.

Definition is_ValueError (e : exn) : bool :=
  match e with ValueError => true | _ => false end.

(** A [for] loop whose body may [return]: the body gives [Some v] for
    [return v] and [None] when it falls through or hits [continue]. *)
Fixpoint for_in {A R} (xs : list A) (body : A -> M (option R)) : M (option R) :=
  match xs with
  | [] => ret None
  | x :: rest =>
      r <- body x ;;
      match r with
      | Some v => ret (Some v)
      | None => for_in rest body
      end
  end.

Definition emit (ev : event) : M unit :=
  fun st => (Return tt, mkState (self st) (requests_made st) (draws_made st) (trace st ++ [ev])).

Definition get_self : M GPTMailClient := fun st => (Return (self st), st).

Definition set_email (v : json) : M unit :=
  fun st =>
    let c := self st in
    (Return tt,
     mkState (mkClient (base_url c) (api_key c) (log_callback c) v)
             (requests_made st) (draws_made st) (trace st)).

(** ** Built-ins *)

(** [v.get(key, default)]: only a dict has [get]. *)
Definition py_get (v : json) (key : string) (default : json) : M json :=
  match v with
  | JObj fields =>
      match lookup key fields with
      | Some x => ret x
      | None => ret default
      end
  | _ => raise AttributeError
  end.

(** [v[key]] for a string key. *)
Definition py_getitem (v : json) (key : string) : M json :=
  match v with
  | JObj fields =>
      match lookup key fields with
      | Some x => ret x
      | None => raise (KeyError key)
      end
  | _ => raise TypeError
  end.

(** What [for x in v] runs over: the items of a list, the keys of a dict,
    the characters of a string. *)
Definition py_iter (v : json) : M (list json) :=
  match v with
  | JArr items => ret items
  | JObj fields => ret (map (fun kv => JStr (fst kv)) fields)
  | JStr s => ret (map (fun c => JStr (String c EmptyString)) (list_ascii_of_string s))
  | _ => raise TypeError
  end.

(** [a + " " + b]: only strings concatenate with a string. *)
Definition py_concat (a b : json) : M string :=
  match a, b with
  | JStr x, JStr y => ret (x ++ " " ++ y)%string
  | _, _ => raise TypeError
  end.

(** [a // b] on Python ints: floor division, [ZeroDivisionError] on zero. *)
Definition floordiv (a b : Z) : M Z :=
  if b =? 0 then raise ZeroDivisionError else ret (a / b).

(** [range(lo, hi)]. *)
Definition range (lo hi : Z) : list Z :=
  map (fun k => lo + Z.of_nat k) (seq 0 (Z.to_nat (hi - lo))).

(** [time.sleep(seconds)]: a negative length is a [ValueError]. *)
Definition sleep (seconds : Z) : M unit :=
  if seconds <? 0 then raise ValueError else emit (EvSleep seconds).

(** [res.json()]. *)
Definition res_json (res : response) : M json :=
  match body res with
  | Some v => ret v
  | None => raise JSONDecodeError
  end.

Definition ascii_lowercase : string := "abcdefghijklmnopqrstuvwxyz".
Definition digits : string := "0123456789".

(** [random.choices(population, k=k)]: [k] independent draws, each an index
    into the population; [choices] is the list drawn when [n] draws have
    been consumed before. *)
Definition choices (draw : nat -> nat) (population : string) (k n : nat) : list ascii :=
  let pop := list_ascii_of_string population in
  map (fun i => nth (draw i mod List.length pop)%nat pop "a"%char) (seq n k).

Definition random_choices (draw : nat -> nat) (population : string) (k : nat) : M (list ascii) :=
  fun st =>
    (Return (choices draw population k (draws_made st)),
     mkState (self st) (requests_made st) (draws_made st + k) (trace st)).

(** ** The methods of [GPTMailClient] *)

Section Client.

Variable E : Env.

(** [_log]: the callback is invoked when there is one; whatever it raises
    is swallowed, so the call always returns. *)
Definition _log (lvl : level) (m : message) : M unit :=
  c <- get_self ;;
  if log_callback c then emit (EvLog lvl m) else ret tt.

(** The call [requests.request(method, url, timeout=15, **kwargs)]. *)
Definition requests_request (r : request) : M response :=
  fun st =>
    let st' := mkState (self st) (S (requests_made st)) (draws_made st)
                       (trace st ++ [EvRequest r]) in
    match provider E (requests_made st) r with
    | Answers res => (Return res, st')
    | Fails e => (Raise e, st')
    end.

(** Lines 30-36: the headers of every request. *)
Definition request_headers (c : GPTMailClient) : list (string * string) :=
  ((if negb (api_key c =? "")%string then [("X-API-Key", api_key c)] else [])
   ++ [("Content-Type", "application/json")])%list.

Definition _request (method url : string) (json_ : option json)
    (params : option (list (string * json))) : M response :=
  c <- get_self ;;
  let headers := request_headers c in
  _log info (MsgSending method url) ;;
  try_except Exception
    (requests_request (mkRequest method url headers json_ params 15))
    (fun e => _log error (MsgNetworkFailed e) ;; raise e).

(** Lines 53-65: the request for an address. *)
Definition send_registration (url : string) (domain : option string) : M response :=
  if truthy_str domain then
    let d := match domain with Some d => d | None => "" end in
    picks <- random_choices (draw E) (ascii_lowercase ++ digits) 10 ;;
    let prefix := string_of_list_ascii picks in
    let payload := JObj [("prefix", JStr prefix); ("domain", JStr d)] in
    _log info (MsgRequestingDomain d) ;;
    _request "POST" url (Some payload) None
  else
    _log info MsgRequestingRandom ;;
    _request "GET" url None None.

(** Lines 67-76: what is made of the response.  [Some true] stands for
    [return True], [None] for falling out of the [try] block. *)
Definition read_registration (res : response) : M (option bool) :=
  if status_code res =? 200 then
    data <- res_json res ;;
    success <- py_get data "success" None_ ;;
    if truthy success then
      d <- py_getitem data "data" ;;
      e <- py_getitem d "email" ;;
      set_email e ;;
      _log info (MsgEmailGenerated e) ;;
      ret (Some true)
    else
      err <- py_get data "error" None_ ;;
      _log error (MsgApiError err) ;;
      ret None
  else
    _log error (MsgRequestFailed (status_code res)) ;;
    ret None.

Definition register_account (domain : option string) : M bool :=
  c <- get_self ;;
  let url := (base_url c ++ "/api/generate-email")%string in
  r <- try_except Exception
    (res <- send_registration url domain ;;
     read_registration res)
    (fun e => _log error (MsgRegistrationException e) ;; ret None) ;;
  match r with
  | Some b => ret b
  | None => ret false
  end.

(** The request a registration sends: lines 50-65 with the defaults of
    [_request]. *)
Definition registration_request (domain : option string) (st : state) : request :=
  let url := (base_url (self st) ++ "/api/generate-email")%string in
  if truthy_str domain then
    let d := match domain with Some d => d | None => "" end in
    let prefix :=
      string_of_list_ascii
        (choices (draw E) (ascii_lowercase ++ digits) 10 (draws_made st)) in
    mkRequest "POST" url (request_headers (self st))
              (Some (JObj [("prefix", JStr prefix); ("domain", JStr d)])) None 15
  else
    mkRequest "GET" url (request_headers (self st)) None None 15.

(** Lines 127-135: the stale-message filter.  [true] stands for
    [continue]. *)
Definition stale (since_time : option (since E)) (msg : json) : M bool :=
  match since_time with
  | None => ret false
  | Some t0 =>
      created_at_str <- py_get msg "created_at" None_ ;;
      if truthy created_at_str then
        try_except is_ValueError
          (msg_time <-
             match created_at_str with
             | JStr s =>
                 match strptime E s with
                 | Some t => ret t
                 | None => raise ValueError
                 end
             | _ => raise TypeError
             end ;;
           match before E msg_time t0 with
           | Some b => ret b
           | None => raise TypeError
           end)
          (fun _ => ret false)
      else ret false
  end.

(** Lines 138-145: the content check. *)
Definition check_content (msg : json) : M (option string) :=
  content <- py_get msg "content" (JStr "") ;;
  html_content <- py_get msg "html_content" (JStr "") ;;
  full_text <- py_concat content html_content ;;
  emit (EvExtract full_text) ;;
  let code := extract_verification_code E full_text in
  if truthy_str code then
    _log info (MsgCodeFound (match code with Some s => s | None => "" end)) ;;
    ret code
  else ret None.

(** One turn of the loop over the messages. *)
Definition scan_message (since_time : option (since E)) (msg : json) : M (option string) :=
  skip <- stale since_time msg ;;
  if skip then ret None else check_content msg.

Definition _fetch_verification_code (since_time : option (since E)) : M (option string) :=
  c <- get_self ;;
  let url := (base_url c ++ "/api/emails")%string in
  try_except Exception
    (res <- _request "GET" url None (Some [("email", email c)]) ;;
     if negb (status_code res =? 200) then ret None else
     data <- res_json res ;;
     success <- py_get data "success" None_ ;;
     if negb (truthy success) then ret None else
     d <- py_get data "data" (JObj []) ;;
     emails <- py_get d "emails" (JArr []) ;;
     if negb (truthy emails) then ret None else
     msgs <- py_iter emails ;;
     for_in msgs (scan_message since_time))
    (fun e => _log error (MsgFetchError e) ;; ret None).

(** The request a fetch sends: lines 110-112 with the defaults of
    [_request]. *)
Definition fetch_request (c : GPTMailClient) : request :=
  mkRequest "GET" (base_url c ++ "/api/emails")%string (request_headers c)
            None (Some [("email", email c)]) 15.

(** One turn of the polling loop, for the index [i]. *)
Definition poll_attempt (max_retries interval : Z) (since_time : option (since E))
    (i : Z) : M (option string) :=
  code <- _fetch_verification_code since_time ;;
  if truthy_str code then ret code
  else
    (if i <? max_retries then sleep interval else ret tt) ;;
    ret None.

Definition poll_for_code (timeout interval : Z) (since_time : option (since E))
    : M (option string) :=
  c <- get_self ;;
  if negb (truthy (email c)) then
    _log error MsgNoEmail ;;
    ret None
  else
    max_retries <- floordiv timeout interval ;;
    _log info (MsgPolling timeout) ;;
    r <- for_in (range 1 (max_retries + 1)) (poll_attempt max_retries interval since_time) ;;
    match r with
    | Some code => ret (Some code)
    | None =>
        _log error (MsgPollingTimedOut timeout) ;;
        ret None
    end.

End Client.

(** ** Reading a trace *)

(** [m] never raises. *)
Definition total {A} (m : M A) : Prop :=
  forall st, exists a, fst (m st) = Return a.

(** Every run of [m] takes a state to one related to it by [R]. *)
Definition preserves (R : state -> state -> Prop) {A} (m : M A) : Prop :=
  forall st, R st (snd (m st)).


(** What the polling loop does to the outside world, without the log. *)
Inductive step : Type :=
| Fetch                                  (* one call of requests.request *)
| Sleep (seconds : Z).                   (* one call of time.sleep *)

Fixpoint schedule (tr : list event) : list step :=
  match tr with
  | [] => []
  | EvRequest _ :: rest => Fetch :: schedule rest
  | EvSleep s :: rest => Sleep s :: schedule rest
  | _ :: rest => schedule rest
  end.

Fixpoint requests_of (tr : list event) : list request :=
  match tr with
  | [] => []
  | EvRequest r :: rest => r :: requests_of rest
  | _ :: rest => requests_of rest
  end.

Fixpoint extracted (tr : list event) : list string :=
  match tr with
  | [] => []
  | EvExtract text :: rest => text :: extracted rest
  | _ :: rest => extracted rest
  end.

Definition is_fetch (s : step) : bool :=
  match s with Fetch => true | Sleep _ => false end.

Definition fetches (tr : list event) : nat :=
  List.length (filter is_fetch (schedule tr)).

Definition sleeps (tr : list event) : nat :=
  List.length (filter (fun s => negb (is_fetch s)) (schedule tr)).

(** The client is untouched and the trace has grown by events whose
    fetches and sleeps are [sch]. *)
Definition advances (sch : list step) (st st' : state) : Prop :=
  self st' = self st /\
  exists evs, trace st' = (trace st ++ evs)%list /\ schedule evs = sch.

Definition quiet : state -> state -> Prop := advances [].

(** The state after a call of [_log]. *)
Definition logged (lvl : level) (m : message) (st : state) : state :=
  mkState (self st) (requests_made st) (draws_made st)
          (trace st ++ if log_callback (self st) then [EvLog lvl m] else []).

(** What one turn of the polling loop does when it finds no code. *)
Definition turn (max_retries interval i : Z) : list step :=
  Fetch :: (if i <? max_retries then [Sleep interval] else []).

(** [n] attempts with a sleep between each two of them. *)
Fixpoint polling_schedule (n : nat) (interval : Z) : list step :=
  match n with
  | O => []
  | S O => [Fetch]
  | S n' => Fetch :: Sleep interval :: polling_schedule n' interval
  end.

(** The provider answered the call and reported success: status 200 and a
    truthy [success] field in a JSON object. *)
Definition provider_success (o : http_outcome) : bool :=
  match o with
  | Fails _ => false
  | Answers res =>
      (status_code res =? 200) &&
      match body res with
      | Some (JObj fields) =>
          match lookup "success" fields with
          | Some v => truthy v
          | None => false
          end
      | _ => false
      end
  end.

(** A transport failure or a status other than 200. *)
Definition transport_failure (o : http_outcome) : bool :=
  match o with
  | Fails _ => true
  | Answers res => negb (status_code res =? 200)
  end.

(** The text [msg.get(key, "")] gives when it is a string. *)
Definition field_text (key : string) (fields : list (string * json)) : option string :=
  match lookup key fields with
  | Some (JStr text) => Some text
  | Some _ => None
  | None => Some ""
  end.

Definition in_alphabet (c : ascii) : bool :=
  existsb (Ascii.eqb c) (list_ascii_of_string (ascii_lowercase ++ digits)).

(** A read-style request: a [GET] with no body. *)
Definition read_style (r : request) : Prop :=
  req_method r = "GET" /\ req_json r = None.

(** A write-style request for an address at [domain]: a [POST] whose body
    names the domain and a local part of ten lowercase letters and digits. *)
Definition write_style (domain : string) (r : request) : Prop :=
  req_method r = "POST" /\
  exists prefix,
    req_json r = Some (JObj [("prefix", JStr prefix); ("domain", JStr domain)]) /\
    String.length prefix = 10%nat /\
    forallb in_alphabet (list_ascii_of_string prefix) = true.

(** ** A concrete world for the examples *)

Module Demo.

Definition digit (c : ascii) : option Z :=
  let n := Z.of_nat (nat_of_ascii c) in
  if (48 <=? n) && (n <=? 57) then Some (n - 48) else None.

Fixpoint number (acc : Z) (cs : list ascii) : option Z :=
  match cs with
  | [] => Some acc
  | c :: rest =>
      match digit c with
      | Some d => number (10 * acc + d) rest
      | None => None
      end
  end.

(** A stand-in for [strptime]: it reads zero-padded
    [YYYY-MM-DD HH:MM:SS] and gives the fourteen digits as one number, which
    orders such timestamps by time.  It checks no ranges. *)
Definition strptime (s : string) : option Z :=
  match list_ascii_of_string s with
  | [y1; y2; y3; y4; "-"; m1; m2; "-"; d1; d2; " "; h1; h2; ":"; n1; n2; ":"; s1; s2]%char =>
      number 0 [y1; y2; y3; y4; m1; m2; d1; d2; h1; h2; n1; n2; s1; s2]
  | _ => None
  end.

Definition before (t t0 : Z) : option bool := Some (t <? t0).

(** A stand-in for the extractor: the six characters after
    ["Your code is "] at the start of the text. *)
Definition extract (text : string) : option string :=
  if String.prefix "Your code is " text then Some (String.substring 13 6 text) else None.

Definition env (p : nat -> request -> http_outcome) : Env :=
  mkEnv Z Z strptime before extract p (fun n => (7 * n + 3)%nat).

Definition down : nat -> request -> http_outcome :=
  fun _ _ => Answers (mkResponse 500 None).

Definition unreachable : nat -> request -> http_outcome :=
  fun _ _ => Fails (RequestException "connection refused").

Definition inbox (msgs : list json) : nat -> request -> http_outcome :=
  fun _ _ =>
    Answers (mkResponse 200
      (Some (JObj [("success", JBool true); ("data", JObj [("emails", JArr msgs)])]))).

Definition gives (address : json) : nat -> request -> http_outcome :=
  fun _ _ =>
    Answers (mkResponse 200
      (Some (JObj [("success", JBool true); ("data", JObj [("email", address)])]))).


Definition mail (created_at : json) (content : string) : json :=
  JObj [("created_at", created_at); ("content", JStr content); ("html_content", JStr "")].

Definition client (address : json) : GPTMailClient :=
  mkClient "https://mail.chatgpt.org.uk" "" true address.

Definition start (address : json) : state := mkState (client address) 0 0 [].

End Demo.

(** ** The constructor and further readings of a run *)

(** [s.rstrip(chars)] on the characters of [s]: the trailing characters
    that are in [chars] go. *)
Fixpoint rstrip_list (chars : list ascii) (l : list ascii) : list ascii :=
  match l with
  | [] => []
  | c :: rest =>
      match rstrip_list chars rest with
      | [] => if existsb (Ascii.eqb c) chars then [] else [c]
      | kept => c :: kept
      end
  end.

Definition rstrip (s chars : string) : string :=
  string_of_list_ascii (rstrip_list (list_ascii_of_string chars) (list_ascii_of_string s)).

(** Lines 10-19.  [strip] is [str.strip()], taken from outside; the
    callback is kept as the fact that there is one. *)
Definition __init__ (strip : string -> string) (base_url_ api_key_ : string)
    (log_callback_ : bool) : GPTMailClient :=
  mkClient (rstrip base_url_ "/") (strip api_key_) log_callback_ None_.

(** The state in which a client starts. *)
Definition fresh (c : GPTMailClient) : state := mkState c 0 0 [].

(** The state after [_request] has sent [r] and got an answer. *)
Definition requested (r : request) (st : state) : state :=
  mkState (self st) (S (requests_made st)) (draws_made st)
          (trace (logged info (MsgSending (req_method r) (req_url r)) st) ++ [EvRequest r]).

(** The state after line 70 has stored [address]. *)
Definition with_email (address : json) (st : state) : state :=
  mkState (mkClient (base_url (self st)) (api_key (self st)) (log_callback (self st)) address)
          (requests_made st) (draws_made st) (trace st).

(** The address a registration stores for an outcome of the provider, if it
    stores one: lines 67-70. *)
Definition granted (o : http_outcome) : option json :=
  match o with
  | Fails _ => None
  | Answers res =>
      if status_code res =? 200 then
        match body res with
        | Some (JObj fields) =>
            match lookup "success" fields with
            | Some v =>
                if truthy v then
                  match lookup "data" fields with
                  | Some (JObj data) => lookup "email" data
                  | _ => None
                  end
                else None
            | None => None
            end
        | _ => None
        end
      else None
  end.

(** The value of [emails] at line 120 for an outcome of the provider, when
    the fetch gets that far without an exception. *)
Definition served (o : http_outcome) : option json :=
  match o with
  | Fails _ => None
  | Answers res =>
      if status_code res =? 200 then
        match body res with
        | Some (JObj fields) =>
            match lookup "success" fields with
            | Some v =>
                if truthy v then
                  match lookup "data" fields with
                  | None => Some (JArr [])
                  | Some (JObj data) =>
                      match lookup "emails" data with
                      | Some emails => Some emails
                      | None => Some (JArr [])
                      end
                  | Some _ => None
                  end
                else None
            | None => None
            end
        | _ => None
        end
      else None
  end.

(** [a] is an initial segment of [b]. *)
Definition prefix_of {A} (a b : list A) : Prop := exists rest, b = (a ++ rest)%list.

(** The seconds slept in a schedule. *)
Fixpoint slept (sch : list step) : Z :=
  match sch with
  | [] => 0
  | Fetch :: rest => slept rest
  | Sleep s :: rest => s + slept rest
  end.

(** Nothing but log entries and extractor calls: client and counters are
    as they were. *)
Definition silent (st st' : state) : Prop :=
  self st' = self st /\
  requests_made st' = requests_made st /\
  draws_made st' = draws_made st /\
  exists evs, trace st' = (trace st ++ evs)%list /\ schedule evs = [].

(** One request, [r], has been sent, and nothing else has left the client. *)
Definition sent (r : request) (st st' : state) : Prop :=
  self st' = self st /\
  requests_made st' = S (requests_made st) /\
  draws_made st' = draws_made st /\
  exists evs,
    trace st' = (trace st ++ evs)%list /\ requests_of evs = [r] /\ schedule evs = [Fetch].

(** What polling may do: the client and the random generator are as they
    were, and every request sent is the fetch request of the client. *)
Definition polling (st st' : state) : Prop :=
  self st' = self st /\
  draws_made st' = draws_made st /\
  exists evs,
    trace st' = (trace st ++ evs)%list /\
    Forall (fun r => r = fetch_request (self st)) (requests_of evs) /\
    requests_made st' = (requests_made st + List.length (requests_of evs))%nat.

(** The trace has only grown. *)
Definition extends (st st' : state) : Prop :=
  exists evs, trace st' = (trace st ++ evs)%list.

(** Between [st] and [st'] the extractor was called on a text for which it
    gave the code [c], and [c] is not empty. *)
Definition extracted_code (E : Env) (st st' : state) (c : string) : Prop :=
  c <> ""%string /\
  exists evs text,
    trace st' = (trace st ++ evs)%list /\
    In (EvExtract text) evs /\
    extract_verification_code E text = Some c.

(** Every code [m] returns is one the extractor gave during the run. *)
Definition returns_extracted (E : Env) (m : M (option string)) : Prop :=
  forall st c, fst (m st) = Return (Some c) -> extracted_code E st (snd (m st)) c.

(** * Properties *)

(** ** The monad *)

Ltac run := cbv [bind ret raise try_except get_self Exception] in *; cbn [fst snd] in *.

Lemma total_ret {A} (a : A) : total (ret a).
Proof. intros st; exists a; reflexivity. Qed.

Lemma total_bind {A B} (m : M A) (k : A -> M B) :
  total m -> (forall a, total (k a)) -> total (bind m k).
Proof.
  intros Hm Hk st. unfold bind.
  destruct (Hm st) as [a Ha]. destruct (m st) as [o st1]; simpl in Ha; subst o.
  apply Hk.
Qed.

Lemma total_try_except {A} (body : M A) (handler : exn -> M A) :
  (forall e, total (handler e)) -> total (try_except Exception body handler).
Proof.
  intros Hh st. unfold try_except, Exception.
  destruct (body st) as [[a | e] st1].
  - exists a; reflexivity.
  - apply Hh.
Qed.


Lemma total_if {A} (b : bool) (m1 m2 : M A) :
  total m1 -> total m2 -> total (if b then m1 else m2).
Proof. destruct b; auto. Qed.

Lemma total_get_self : total get_self.
Proof. intros st; eexists; reflexivity. Qed.

Lemma total_emit ev : total (emit ev).
Proof. intros st; eexists; reflexivity. Qed.

Lemma total__log lvl m : total (_log lvl m).
Proof.
  apply total_bind; [apply total_get_self |].
  intros c; apply total_if; [apply total_emit | apply total_ret].
Qed.

(** ** Traces *)

Lemma schedule_app (a b : list event) : schedule (a ++ b) = (schedule a ++ schedule b)%list.
Proof.
  induction a as [| ev a IH]; [reflexivity |].
  destruct ev; cbn [schedule app]; rewrite IH; reflexivity.
Qed.

Lemma requests_of_app (a b : list event) :
  requests_of (a ++ b) = (requests_of a ++ requests_of b)%list.
Proof.
  induction a as [| ev a IH]; [reflexivity |].
  destruct ev; cbn [requests_of app]; rewrite IH; reflexivity.
Qed.

Lemma schedule_nil_requests (evs : list event) : schedule evs = [] -> requests_of evs = [].
Proof.
  induction evs as [| ev evs IH]; [reflexivity |].
  destruct ev; cbn [schedule requests_of]; intros H; try discriminate; auto.
Qed.

Lemma advances_refl st : advances [] st st.
Proof. split; [reflexivity |]. exists []. rewrite app_nil_r. split; reflexivity. Qed.



Lemma advances_emit sch ev st :
  schedule [ev] = sch -> advances sch st (snd (emit ev st)).
Proof.
  intros H. split; [reflexivity |]. exists [ev]. split; [reflexivity | exact H].
Qed.


(** ** Preservation of a relation between states

    A relation that is reflexive and transitive and that holds across each
    kind of event the code emits holds across every method. *)

Section Preservation.

Variable E : Env.
Variable R : state -> state -> Prop.
Hypothesis R_refl : forall st, R st st.
Hypothesis R_trans : forall st1 st2 st3, R st1 st2 -> R st2 st3 -> R st1 st3.
Hypothesis R_log : forall lvl m st, R st (snd (emit (EvLog lvl m) st)).
Hypothesis R_extract : forall text st, R st (snd (emit (EvExtract text) st)).

Lemma preserves_ret {A} (a : A) : preserves R (ret a).
Proof. intros st; apply R_refl. Qed.

Lemma preserves_raise {A} (e : exn) : preserves R (@raise A e).
Proof. intros st; apply R_refl. Qed.

Lemma preserves_bind {A B} (m : M A) (k : A -> M B) :
  preserves R m -> (forall a, preserves R (k a)) -> preserves R (bind m k).
Proof.
  intros Hm Hk st. unfold bind. specialize (Hm st).
  destruct (m st) as [[a | e] st1]; cbn [snd] in *.
  - eapply R_trans; [exact Hm | apply Hk].
  - exact Hm.
Qed.

Lemma preserves_try_except {A} cls (body : M A) (handler : exn -> M A) :
  preserves R body -> (forall e, preserves R (handler e)) ->
  preserves R (try_except cls body handler).
Proof.
  intros Hb Hh st. unfold try_except. specialize (Hb st).
  destruct (body st) as [[a | e] st1]; cbn [snd] in *; [exact Hb |].
  destruct (cls e); [| exact Hb].
  eapply R_trans; [exact Hb | apply Hh].
Qed.

Lemma preserves_for_in {A B} (body : A -> M (option B)) (xs : list A) :
  (forall x, preserves R (body x)) -> preserves R (for_in xs body).
Proof.
  intros Hb. induction xs as [| x rest IH]; cbn [for_in].
  - apply preserves_ret.
  - apply preserves_bind; [apply Hb |].
    intros [v |]; [apply preserves_ret | exact IH].
Qed.

Lemma preserves_if {A} (b : bool) (m1 m2 : M A) :
  preserves R m1 -> preserves R m2 -> preserves R (if b then m1 else m2).
Proof. destruct b; auto. Qed.

Lemma preserves_get_self : preserves R get_self.
Proof. intros st; apply R_refl. Qed.

Lemma preserves__log lvl m : preserves R (_log lvl m).
Proof.
  intros st. unfold _log. run.
  destruct (log_callback (self st)); [apply R_log | apply R_refl].
Qed.

Lemma preserves_py_get v key default : preserves R (py_get v key default).
Proof.
  unfold py_get. destruct v; try apply preserves_raise.
  destruct (lookup key fields); apply preserves_ret.
Qed.

Lemma preserves_py_concat a b : preserves R (py_concat a b).
Proof.
  unfold py_concat. destruct a; try apply preserves_raise.
  destruct b; try apply preserves_raise. apply preserves_ret.
Qed.

Lemma preserves_py_iter v : preserves R (py_iter v).
Proof. unfold py_iter. destruct v; try apply preserves_raise; apply preserves_ret. Qed.

Lemma preserves_res_json res : preserves R (res_json res).
Proof. unfold res_json. destruct (body res); [apply preserves_ret | apply preserves_raise]. Qed.

Lemma preserves_stale since_time msg : preserves R (stale E since_time msg).
Proof.
  unfold stale. destruct since_time as [t0 |]; [| apply preserves_ret].
  apply preserves_bind; [apply preserves_py_get |]. intros created_at_str.
  apply preserves_if; [| apply preserves_ret].
  apply preserves_try_except; [| intros; apply preserves_ret].
  apply preserves_bind.
  - destruct created_at_str; try apply preserves_raise.
    destruct (strptime E s); [apply preserves_ret | apply preserves_raise].
  - intros t. destruct (before E t t0); [apply preserves_ret | apply preserves_raise].
Qed.

Lemma preserves_check_content msg : preserves R (check_content E msg).
Proof.
  unfold check_content.
  apply preserves_bind; [apply preserves_py_get |]. intros content.
  apply preserves_bind; [apply preserves_py_get |]. intros html_content.
  apply preserves_bind; [apply preserves_py_concat |]. intros full_text.
  apply preserves_bind; [intros st; apply R_extract |]. intros _.
  apply preserves_if; [| apply preserves_ret].
  apply preserves_bind; [apply preserves__log | intros; apply preserves_ret].
Qed.

Lemma preserves_scan_message since_time msg : preserves R (scan_message E since_time msg).
Proof.
  unfold scan_message.
  apply preserves_bind; [apply preserves_stale |].
  intros skip. apply preserves_if; [apply preserves_ret | apply preserves_check_content].
Qed.

(** Lines 113-147: what [_fetch_verification_code] does with the response. *)
Lemma preserves_scan_response since_time res :
  preserves R
    (if negb (status_code res =? 200) then ret None else
     data <- res_json res ;;
     success <- py_get data "success" None_ ;;
     if negb (truthy success) then ret None else
     d <- py_get data "data" (JObj []) ;;
     emails <- py_get d "emails" (JArr []) ;;
     if negb (truthy emails) then ret None else
     msgs <- py_iter emails ;;
     for_in msgs (scan_message E since_time)).
Proof.
  apply preserves_if; [apply preserves_ret |].
  apply preserves_bind; [apply preserves_res_json |]. intros data.
  apply preserves_bind; [apply preserves_py_get |]. intros success.
  apply preserves_if; [apply preserves_ret |].
  apply preserves_bind; [apply preserves_py_get |]. intros d.
  apply preserves_bind; [apply preserves_py_get |]. intros emails.
  apply preserves_if; [apply preserves_ret |].
  apply preserves_bind; [apply preserves_py_iter |]. intros msgs.
  apply preserves_for_in. intros msg. apply preserves_scan_message.
Qed.

(** With the two events of the outside world added, the relation holds
    across a fetch and across the whole polling loop. *)
Hypothesis R_request : forall r st, R st (snd (emit (EvRequest r) st)).
Hypothesis R_sleep : forall s st, R st (snd (emit (EvSleep s) st)).
Hypothesis R_count : forall st,
  R st (mkState (self st) (S (requests_made st)) (draws_made st) (trace st)).

Lemma preserves_requests_request r : preserves R (requests_request E r).
Proof.
  intros st. unfold requests_request.
  assert (H : R st (mkState (self st) (S (requests_made st)) (draws_made st)
                            (trace st ++ [EvRequest r]))).
  { eapply R_trans; [apply (R_count st) |]. apply (R_request r). }
  destruct (provider E (requests_made st) r); exact H.
Qed.

Lemma preserves__request method url j p : preserves R (_request E method url j p).
Proof.
  unfold _request.
  apply preserves_bind; [apply preserves_get_self |]. intros c.
  apply preserves_bind; [apply preserves__log |]. intros _.
  apply preserves_try_except; [apply preserves_requests_request |].
  intros e. apply preserves_bind; [apply preserves__log | intros; apply preserves_raise].
Qed.

Lemma preserves__fetch since_time : preserves R (_fetch_verification_code E since_time).
Proof.
  unfold _fetch_verification_code.
  apply preserves_bind; [apply preserves_get_self |]. intros c.
  apply preserves_try_except.
  - apply preserves_bind; [apply preserves__request |]. intros res.
    apply preserves_scan_response.
  - intros e. apply preserves_bind; [apply preserves__log | intros; apply preserves_ret].
Qed.

Lemma preserves_sleep s : preserves R (sleep s).
Proof.
  unfold sleep. apply preserves_if; [apply preserves_raise |].
  intros st; apply R_sleep.
Qed.

Lemma preserves_poll_attempt max_retries interval since_time i :
  preserves R (poll_attempt E max_retries interval since_time i).
Proof.
  unfold poll_attempt.
  apply preserves_bind; [apply preserves__fetch |]. intros code.
  apply preserves_if; [apply preserves_ret |].
  apply preserves_bind; [| intros; apply preserves_ret].
  apply preserves_if; [apply preserves_sleep | apply preserves_ret].
Qed.

Lemma preserves_poll_for_code timeout interval since_time :
  preserves R (poll_for_code E timeout interval since_time).
Proof.
  unfold poll_for_code.
  apply preserves_bind; [apply preserves_get_self |]. intros c.
  apply preserves_if.
  - apply preserves_bind; [apply preserves__log | intros; apply preserves_ret].
  - apply preserves_bind.
    + unfold floordiv. apply preserves_if; [apply preserves_raise | apply preserves_ret].
    + intros max_retries.
      apply preserves_bind; [apply preserves__log |]. intros _.
      apply preserves_bind.
      * apply preserves_for_in. intros i. apply preserves_poll_attempt.
      * intros [code |]; [apply preserves_ret |].
        apply preserves_bind; [apply preserves__log | intros; apply preserves_ret].
Qed.

End Preservation.

(** ** Fetches and sleeps *)

Lemma quiet_log lvl m st : quiet st (snd (emit (EvLog lvl m) st)).
Proof. apply advances_emit; reflexivity. Qed.


Lemma bind_Return {A B} (m : M A) (k : A -> M B) st a st1 :
  m st = (Return a, st1) -> bind m k st = k a st1.
Proof. intros H; unfold bind; rewrite H; reflexivity. Qed.

Lemma bind_case {A B} (m : M A) (k : A -> M B) st :
  bind m k st =
  match m st with
  | (Return a, st') => k a st'
  | (Raise e, st') => (Raise e, st')
  end.
Proof. reflexivity. Qed.

Lemma bind_Raise {A B} (m : M A) (k : A -> M B) st e st1 :
  m st = (Raise e, st1) -> bind m k st = (Raise e, st1).
Proof. intros H; unfold bind; rewrite H; reflexivity. Qed.




Lemma quiet__log lvl m : preserves quiet (_log lvl m).
Proof. apply preserves__log; [apply advances_refl | apply quiet_log]. Qed.




(** A fetch never raises. *)
Lemma _fetch_total E since_time : total (_fetch_verification_code E since_time).
Proof.
  unfold _fetch_verification_code.
  apply total_bind; [apply total_get_self |]. intros c.
  apply total_try_except. intros e.
  apply total_bind; [apply total__log | intros; apply total_ret].
Qed.




Lemma turns_schedule interval (n k0 : nat) :
  List.concat (map (turn (Z.of_nat (k0 + n)) interval)
              (map (fun k => 1 + Z.of_nat k) (seq k0 n)))
  = polling_schedule n interval.
Proof.
  revert k0. induction n as [| n IH]; intros k0; [reflexivity |].
  cbn [seq map List.concat]. replace (k0 + S n)%nat with (S k0 + n)%nat by lia.
  rewrite IH. unfold turn.
  destruct n as [| n'].
  - replace (1 + Z.of_nat k0 <? Z.of_nat (S k0 + 0)) with false; [reflexivity |].
    symmetry; apply Z.ltb_ge; lia.
  - replace (1 + Z.of_nat k0 <? Z.of_nat (S k0 + S n')) with true; [reflexivity |].
    symmetry; apply Z.ltb_lt; lia.
Qed.

(** The turns of [for i in range(1, max_retries + 1)]. *)
Lemma range_schedule max_retries interval :
  List.concat (map (turn max_retries interval) (range 1 (max_retries + 1)))
  = polling_schedule (Z.to_nat max_retries) interval.
Proof.
  unfold range. replace (max_retries + 1 - 1) with max_retries by lia.
  destruct (Z.le_gt_cases max_retries 0) as [Hle | Hgt].
  - replace (Z.to_nat max_retries) with 0%nat by lia. reflexivity.
  - rewrite <- (turns_schedule interval (Z.to_nat max_retries) 0).
    cbn [Nat.add]. rewrite Z2Nat.id by lia. reflexivity.
Qed.

Lemma polling_schedule_fetches n interval :
  List.length (filter is_fetch (polling_schedule n interval)) = n /\
  List.length (filter (fun s => negb (is_fetch s)) (polling_schedule n interval)) = Nat.pred n.
Proof.
  induction n as [| n [IH1 IH2]]; [split; reflexivity |].
  destruct n as [| n']; [split; reflexivity |].
  change (polling_schedule (S (S n')) interval)
    with (Fetch :: Sleep interval :: polling_schedule (S n') interval).
  cbn [filter is_fetch negb List.length]. rewrite IH1, IH2. split; reflexivity.
Qed.

(** ** The polling loop *)

Lemma _log_run lvl m st :
  _log lvl m st = (Return tt, snd (_log lvl m st)) /\ quiet st (snd (_log lvl m st)).
Proof.
  split; [| apply quiet__log].
  unfold _log. run. destruct (log_callback (self st)); reflexivity.
Qed.





(** ** Claims about [poll_for_code] *)




(** C2.  While the mailbox address is absent ([None]; the guard of the
    code treats an empty address alike), [poll_for_code] returns [None] at
    once for every timeout, interval and [since_time]: no request is made,
    the client is untouched, and the only thing that happens is the call of
    [_log] with level [error], which reaches the callback when one is
    configured. *)
Theorem poll_for_code_without_address E timeout interval since_time st :
  truthy (email (self st)) = false ->
  exists st',
    poll_for_code E timeout interval since_time st = (Return None, st') /\
    self st' = self st /\
    requests_made st' = requests_made st /\
    st' = snd (_log error MsgNoEmail st) /\
    trace st' =
      (trace st ++ if log_callback (self st) then [EvLog error MsgNoEmail] else [])%list.
Proof.
  intros Habs. unfold poll_for_code, _log, emit. run. rewrite Habs. cbn [negb].
  destruct (log_callback (self st)); eexists; cbn [fst snd self requests_made trace];
    repeat split; try reflexivity.
  rewrite app_nil_r; reflexivity.
Qed.

Lemma poll_for_code_without_address_witness :
  exists st',
    poll_for_code (Demo.env (Demo.inbox [])) 120 4 None (Demo.start None_) = (Return None, st') /\
    self st' = self (Demo.start None_) /\
    requests_made st' = requests_made (Demo.start None_) /\
    st' = snd (_log error MsgNoEmail (Demo.start None_)) /\
    trace st' =
      (trace (Demo.start None_) ++
       if log_callback (self (Demo.start None_)) then [EvLog error MsgNoEmail] else [])%list.
Proof.
  apply (poll_for_code_without_address (Demo.env (Demo.inbox [])) 120 4 None (Demo.start None_)).
  reflexivity.
Defined.





(** ** Claims about the scan of the messages *)

Ltac step := cbv beta iota delta [bind ret raise try_except is_ValueError];
             cbn [fst snd truthy truthy_str negb None_].

(** The content check passes the two texts, joined by a space, to the
    extractor and returns its code when it is truthy. *)
Lemma check_content_extracts E fields c h st :
  field_text "content" fields = Some c ->
  field_text "html_content" fields = Some h ->
  exists st' evs,
    check_content E (JObj fields) st
      = (Return (if truthy_str (extract_verification_code E (c ++ " " ++ h))
                 then extract_verification_code E (c ++ " " ++ h) else None), st') /\
    trace st' = (trace st ++ EvExtract (c ++ " " ++ h) :: evs)%list /\
    extracted (EvExtract (c ++ " " ++ h) :: evs) = [(c ++ " " ++ h)%string].
Proof.
  unfold field_text. intros Hc Hh.
  assert (Hgc : py_get (JObj fields) "content" (JStr "") = ret (JStr c)).
  { unfold py_get. destruct (lookup "content" fields) as [[] |]; congruence. }
  assert (Hgh : py_get (JObj fields) "html_content" (JStr "") = ret (JStr h)).
  { unfold py_get. destruct (lookup "html_content" fields) as [[] |]; congruence. }
  unfold check_content. rewrite Hgc, Hgh. unfold py_concat, emit, _log. step.
  destruct (truthy_str (extract_verification_code E (c ++ " " ++ h))).
  - unfold get_self. step. cbn [self]. destruct (log_callback (self st)); step;
      eexists; eexists; (split; [reflexivity |]); cbn [trace self];
      rewrite <- ?app_assoc; split; reflexivity.
  - eexists; exists []. split; [reflexivity |]. split; reflexivity.
Qed.




(** C9.  In a scan with a [since_time], a message that has no [created_at]
    field at all passes the stale-message filter and is scanned: its turn
    is the content check, which calls the extractor on its text. *)
Theorem message_without_timestamp_scanned E (t0 : since E) fields :
  lookup "created_at" fields = None ->
  (forall st, stale E (Some t0) (JObj fields) st = (Return false, st)) /\
  (forall st, scan_message E (Some t0) (JObj fields) st = check_content E (JObj fields) st) /\
  (forall c h st,
     field_text "content" fields = Some c ->
     field_text "html_content" fields = Some h ->
     exists evs,
       trace (snd (scan_message E (Some t0) (JObj fields) st))
         = (trace st ++ EvExtract (c ++ " " ++ h) :: evs)%list).
Proof.
  intros Hl.
  assert (Hpass : forall st, stale E (Some t0) (JObj fields) st = (Return false, st)).
  { intros st. unfold stale, py_get. rewrite Hl. reflexivity. }
  assert (Hopen : forall st,
            scan_message E (Some t0) (JObj fields) st = check_content E (JObj fields) st).
  { intros st. unfold scan_message. rewrite (bind_Return _ _ _ _ _ (Hpass st)). reflexivity. }
  split; [exact Hpass |]. split; [exact Hopen |].
  intros c h st Hc Hh. rewrite Hopen.
  destruct (check_content_extracts E fields c h st Hc Hh) as [st' [evs [Hrun [Htr _]]]].
  exists evs. rewrite Hrun. exact Htr.
Qed.

Lemma message_without_timestamp_scanned_witness :
  scan_message (Demo.env (Demo.inbox [])) (Some 20251114103500)
    (JObj [("content", JStr "Your code is 333333")]) (Demo.start (JStr "a@b.c"))
  = check_content (Demo.env (Demo.inbox []))
      (JObj [("content", JStr "Your code is 333333")]) (Demo.start (JStr "a@b.c")).
Proof.
  destruct (message_without_timestamp_scanned (Demo.env (Demo.inbox [])) 20251114103500
              [("content", JStr "Your code is 333333")] eq_refl) as [_ [Hopen _]].
  apply Hopen.
Defined.

(** ** Claims about a failed fetch *)

Lemma try_except_Raise {A} cls (body : M A) handler st e st1 :
  body st = (Raise e, st1) -> cls e = true ->
  try_except cls body handler st = handler e st1.
Proof. intros H Hc; unfold try_except; rewrite H, Hc; reflexivity. Qed.

Lemma try_except_Return {A} cls (body : M A) handler st a st1 :
  body st = (Return a, st1) -> try_except cls body handler st = (Return a, st1).
Proof. intros H; unfold try_except; rewrite H; reflexivity. Qed.

(** [_request] returns what the provider answers and raises what the
    transport raises. *)
Lemma _request_run E method url j p st :
  fst (_request E method url j p st) =
  match provider E (requests_made st)
          (mkRequest method url (request_headers (self st)) j p 15) with
  | Answers res => Return res
  | Fails e => Raise e
  end.
Proof.
  unfold _request, requests_request, _log, emit, get_self. step.
  destruct (log_callback (self st)) eqn:Hcb; step; cbn [self requests_made];
    destruct (provider E (requests_made st)
                (mkRequest method url (request_headers (self st)) j p 15));
    unfold Exception; step; cbn [self]; try rewrite Hcb; reflexivity.
Qed.

(** C8.  A fetch never raises.  When the transport raises or the status is
    not 200 the fetch returns [None], and the polling loop goes on from
    there as after any attempt without a code: the sleep, if the turn is
    not the last, and then the next attempt. *)
Theorem fetch_failure_is_no_code E since_time st :
  transport_failure (provider E (requests_made st) (fetch_request (self st))) = true ->
  (forall st0, exists v, fst (_fetch_verification_code E since_time st0) = Return v) /\
  fst (_fetch_verification_code E since_time st) = Return None /\
  (forall max_retries interval i rest,
     for_in (i :: rest) (poll_attempt E max_retries interval since_time) st
     = ((if i <? max_retries then sleep interval else ret tt) ;;
        for_in rest (poll_attempt E max_retries interval since_time))
         (snd (_fetch_verification_code E since_time st))).
Proof.
  intros Hfail. split; [apply _fetch_total |].
  assert (Hnone : fst (_fetch_verification_code E since_time st) = Return None).
  { unfold _fetch_verification_code.
    rewrite (bind_Return get_self _ st (self st) st eq_refl).
    pose proof (_request_run E "GET" (base_url (self st) ++ "/api/emails")%string
                  None (Some [("email", email (self st))]) st) as Hr.
    unfold fetch_request in Hfail.
    destruct (_request E "GET" (base_url (self st) ++ "/api/emails")%string
                None (Some [("email", email (self st))]) st) as [o st1] eqn:Hreq.
    cbn [fst] in Hr.
    destruct (provider E (requests_made st) _) as [e | res]; subst o.
    - erewrite try_except_Raise; [| apply bind_Raise; exact Hreq | reflexivity].
      destruct (_log_run error (MsgFetchError e) st1) as [Hlog _].
      rewrite (bind_Return _ _ _ _ _ Hlog). reflexivity.
    - cbn [transport_failure] in Hfail.
      erewrite try_except_Return; [reflexivity |].
      rewrite (bind_Return _ _ _ _ _ Hreq), Hfail. reflexivity. }
  split; [exact Hnone |].
  intros max_retries interval i rest. cbn [for_in]. unfold poll_attempt.
  destruct (_fetch_verification_code E since_time st) as [o st1] eqn:Hrun.
  cbn [fst snd] in *; subst o.
  unfold bind at 1 2. rewrite Hrun. cbn [truthy_str]. unfold bind.
  destruct ((if i <? max_retries then sleep interval else ret tt) st1) as [[[] | e] st2];
    reflexivity.
Qed.

Lemma fetch_failure_is_no_code_witness :
  fst (_fetch_verification_code (Demo.env Demo.unreachable) None (Demo.start (JStr "a@b.c")))
    = Return None.
Proof.
  destruct (fetch_failure_is_no_code (Demo.env Demo.unreachable) None
              (Demo.start (JStr "a@b.c")) eq_refl) as [_ [Hnone _]].
  exact Hnone.
Defined.

(** ** Registration *)

Lemma _log_trace lvl m st : _log lvl m st = (Return tt, logged lvl m st).
Proof.
  unfold _log, emit, get_self, logged. step. destruct (log_callback (self st)); [reflexivity |].
  rewrite app_nil_r. destruct st; reflexivity.
Qed.

Lemma bind__log {B} lvl m (k : unit -> M B) st :
  bind (_log lvl m) k st = k tt (logged lvl m st).
Proof. apply bind_Return, _log_trace. Qed.

Lemma bind_get_self {B} (k : GPTMailClient -> M B) st : bind get_self k st = k (self st) st.
Proof. reflexivity. Qed.

Lemma bind_ret {A B} (a : A) (k : A -> M B) st : bind (ret a) k st = k a st.
Proof. reflexivity. Qed.

Lemma bind_raise {A B} e (k : A -> M B) st : bind (raise e) k st = (Raise e, st).
Proof. reflexivity. Qed.

Ltac proj := cbn [logged self requests_made draws_made trace log_callback email base_url api_key
                  status_code body] in *.

(** [_request] sends one request, and nothing else leaves the client. *)
Lemma _request_sends E method url j p st :
  exists st1 evs,
    _request E method url j p st
    = (match provider E (requests_made st)
               (mkRequest method url (request_headers (self st)) j p 15) with
       | Answers res => Return res
       | Fails e => Raise e
       end, st1) /\
    self st1 = self st /\
    draws_made st1 = draws_made st /\
    trace st1 = (trace st ++ evs)%list /\
    requests_of evs = [mkRequest method url (request_headers (self st)) j p 15].
Proof.
  unfold _request. rewrite bind_get_self, bind__log.
  unfold try_except, requests_request, Exception. proj.
  destruct (provider E (requests_made st) _).
  - rewrite bind__log. unfold raise. eexists; eexists. split; [reflexivity |]. proj.
    rewrite <- !app_assoc. repeat split; try reflexivity.
    destruct (log_callback (self st)); reflexivity.
  - eexists; eexists. split; [reflexivity |]. proj.
    rewrite <- !app_assoc. repeat split; try reflexivity.
    destruct (log_callback (self st)); reflexivity.
Qed.

(** The request for an address goes out once, whatever the provider makes
    of it. *)
Lemma send_registration_run E domain st :
  exists st1 evs,
    send_registration E (base_url (self st) ++ "/api/generate-email") domain st
    = (match provider E (requests_made st) (registration_request E domain st) with
       | Answers res => Return res
       | Fails e => Raise e
       end, st1) /\
    self st1 = self st /\
    draws_made st1 = (draws_made st + if truthy_str domain then 10 else 0)%nat /\
    trace st1 = (trace st ++ evs)%list /\
    requests_of evs = [registration_request E domain st].
Proof.
  unfold send_registration, registration_request.
  destruct (truthy_str domain).
  - unfold bind at 1, random_choices at 1. cbv beta iota. rewrite bind__log.
    match goal with |- context [_request E ?m ?u ?j ?p ?s] =>
      destruct (_request_sends E m u j p s) as [st1 [evs [Hrun [Hself [Hdraw [Htr Hreq]]]]]]
    end.
    proj. exists st1. eexists. split; [exact Hrun |]. split; [exact Hself |].
    split; [exact Hdraw |]. rewrite Htr, <- app_assoc. split; [reflexivity |].
    rewrite requests_of_app, Hreq. destruct (log_callback (self st)); reflexivity.
  - rewrite bind__log.
    match goal with |- context [_request E ?m ?u ?j ?p ?s] =>
      destruct (_request_sends E m u j p s) as [st1 [evs [Hrun [Hself [Hdraw [Htr Hreq]]]]]]
    end.
    proj. exists st1. eexists. split; [exact Hrun |]. split; [exact Hself |].
    split; [rewrite Hdraw; lia |]. rewrite Htr, <- app_assoc. split; [reflexivity |].
    rewrite requests_of_app, Hreq. destruct (log_callback (self st)); reflexivity.
Qed.

Lemma bind_set_email {B} v (k : unit -> M B) st :
  bind (set_email v) k st
  = k tt (mkState (mkClient (base_url (self st)) (api_key (self st))
                            (log_callback (self st)) v)
                  (requests_made st) (draws_made st) (trace st)).
Proof. reflexivity. Qed.

(** What is made of the response: [return True] only for a status 200 with
    a truthy [success]; the address changes in no other case; falling out
    of the block is logged as an error. *)
Lemma read_registration_run res st :
  exists o st' evs,
    read_registration res st = (o, st') /\
    draws_made st' = draws_made st /\
    trace st' = (trace st ++ evs)%list /\
    requests_of evs = [] /\
    match o with
    | Return (Some b) => b = true /\ provider_success (Answers res) = true
    | Return None =>
        self st' = self st /\
        provider_success (Answers res) = false /\
        (log_callback (self st) = true -> exists pre m, evs = (pre ++ [EvLog error m])%list)
    | Raise e => self st' = self st
    end.
Proof.
  assert (Hlogged : forall lvl m,
            requests_of (if log_callback (self st) then [EvLog lvl m] else []) = []).
  { intros; destruct (log_callback (self st)); reflexivity. }
  assert (Hlast : forall m,
            log_callback (self st) = true ->
            exists pre m',
              (if log_callback (self st) then [EvLog error m] else [])
              = (pre ++ [EvLog error m'])%list).
  { intros m Hcb. rewrite Hcb. exists [], m. reflexivity. }
  unfold read_registration, provider_success. proj.
  destruct (status_code res =? 200) eqn:Hst; cbn [andb].
  2:{ rewrite bind__log. do 3 eexists. split; [reflexivity |]. proj.
      repeat split; auto. }
  unfold res_json. destruct (body res) as [data |].
  2:{ rewrite bind_raise. do 2 eexists; exists []. split; [reflexivity |].
      rewrite app_nil_r. repeat split. }
  rewrite bind_ret. unfold py_get at 1.
  destruct data;
    try (rewrite bind_raise; do 2 eexists; exists []; split; [reflexivity |];
         rewrite app_nil_r; repeat split).
  assert (Hfalsy : forall st0,
            self st0 = self st -> draws_made st0 = draws_made st -> trace st0 = trace st ->
            exists o st' evs,
              (err <- py_get (JObj fields) "error" None_ ;;
               _log error (MsgApiError err) ;; ret None) st0 = (o, st') /\
              draws_made st' = draws_made st /\
              trace st' = (trace st ++ evs)%list /\
              requests_of evs = [] /\
              o = Return (@None bool) /\ self st' = self st /\
              (log_callback (self st) = true ->
               exists pre m, evs = (pre ++ [EvLog error m])%list)).
  { intros st0 H1 H2 H3. unfold py_get.
    destruct (lookup "error" fields); rewrite bind_ret, bind__log;
      do 3 eexists; (split; [reflexivity |]); proj; rewrite H1, H2, H3;
      repeat split; auto. }
  destruct (lookup "success" fields) as [v |]; rewrite bind_ret.
  2:{ cbn [None_ truthy].
      destruct (Hfalsy st eq_refl eq_refl eq_refl) as [o [st' [evs [Hrun [Hd [Ht [Hr [Ho [Hs Hl]]]]]]]]].
      subst o. exists (Return None), st', evs. repeat split; assumption. }
  destruct (truthy v).
  2:{ destruct (Hfalsy st eq_refl eq_refl eq_refl) as [o [st' [evs [Hrun [Hd [Ht [Hr [Ho [Hs Hl]]]]]]]]].
      subst o. exists (Return None), st', evs. repeat split; assumption. }
  unfold py_getitem at 1.
  destruct (lookup "data" fields) as [d |].
  2:{ rewrite bind_raise. do 2 eexists; exists []. split; [reflexivity |].
      rewrite app_nil_r. repeat split. }
  rewrite bind_ret. unfold py_getitem.
  destruct d;
    try (rewrite bind_raise; do 2 eexists; exists []; split; [reflexivity |];
         rewrite app_nil_r; repeat split).
  destruct (lookup "email" fields0) as [e |].
  2:{ rewrite bind_raise. do 2 eexists; exists []. split; [reflexivity |].
      rewrite app_nil_r. repeat split. }
  rewrite bind_ret, bind_set_email, bind__log.
  do 3 eexists. split; [reflexivity |]. proj. repeat split; auto.
Qed.

(** [register_account] always returns.  It sends one request; when it
    returns [False] the client is as it was and, with a callback, the last
    thing logged is an error; and it returns [False] whenever the provider
    did not report success. *)
Lemma register_account_run E domain st :
  exists b st' evs,
    register_account E domain st = (Return b, st') /\
    draws_made st' = (draws_made st + if truthy_str domain then 10 else 0)%nat /\
    trace st' = (trace st ++ evs)%list /\
    requests_of evs = [registration_request E domain st] /\
    (b = false -> self st' = self st) /\
    (b = false -> log_callback (self st) = true ->
     exists pre m, evs = (pre ++ [EvLog error m])%list) /\
    (provider_success (provider E (requests_made st) (registration_request E domain st)) = false ->
     b = false).
Proof.
  unfold register_account. rewrite bind_get_self. cbv zeta.
  destruct (send_registration_run E domain st)
    as [st1 [evs1 [Hsend [Hself1 [Hdraw1 [Htr1 Hreq1]]]]]].
  destruct (provider E (requests_made st) (registration_request E domain st)) as [e | res].
  - erewrite bind_Return;
      [| erewrite try_except_Raise;
         [| apply bind_Raise; exact Hsend | reflexivity];
         rewrite bind__log; reflexivity].
    exists false. eexists. eexists. split; [reflexivity |]. proj.
    rewrite Htr1, <- app_assoc, Hself1. repeat split; auto.
    + rewrite requests_of_app, Hreq1. destruct (log_callback (self st)); reflexivity.
    + intros _ Hcb. rewrite Hcb. exists evs1. eexists. reflexivity.
  - destruct (read_registration_run res st1)
      as [o [st2 [evs2 [Hread [Hdraw2 [Htr2 [Hreq2 Ho]]]]]]].
    assert (Hbody : (res0 <- send_registration E (base_url (self st) ++ "/api/generate-email")
                               domain ;;
                     read_registration res0) st = (o, st2)).
    { rewrite (bind_Return _ _ _ _ _ Hsend). exact Hread. }
    destruct o as [[b |] | e].
    + destruct Ho as [Hb Hsucc]. subst b.
      erewrite bind_Return; [| eapply try_except_Return; exact Hbody].
      exists true, st2, (evs1 ++ evs2)%list. split; [reflexivity |].
      rewrite Hdraw2, Htr2, Htr1, <- app_assoc, requests_of_app, Hreq1, Hreq2.
      repeat split; auto; try discriminate.
      cbn [provider_success] in Hsucc |- *. congruence.
    + destruct Ho as [Hself2 [Hfail Hlast]].
      erewrite bind_Return; [| eapply try_except_Return; exact Hbody].
      exists false, st2, (evs1 ++ evs2)%list. split; [reflexivity |].
      rewrite Hdraw2, Htr2, Htr1, <- app_assoc, requests_of_app, Hreq1, Hreq2.
      repeat split; auto; try congruence.
      intros _ Hcb. rewrite <- Hself1 in Hcb. destruct (Hlast Hcb) as [pre [m Hevs]].
      exists (evs1 ++ pre)%list, m. rewrite Hevs, app_assoc. reflexivity.
    + erewrite bind_Return;
        [| erewrite try_except_Raise; [| exact Hbody | reflexivity];
           rewrite bind__log; reflexivity].
      exists false. eexists. eexists. split; [reflexivity |]. proj.
      rewrite Hdraw2, Htr2, Htr1, <- !app_assoc, Ho, Hself1. repeat split; auto.
      * rewrite !requests_of_app, Hreq1, Hreq2. destruct (log_callback (self st)); reflexivity.
      * intros _ Hcb. rewrite Hcb. exists (evs1 ++ evs2)%list. eexists.
        rewrite <- app_assoc. reflexivity.
Qed.

Lemma choices_length draw population k n :
  List.length (choices draw population k n) = k.
Proof. unfold choices. rewrite length_map, length_seq. reflexivity. Qed.

Lemma choices_in_alphabet draw k n :
  forallb in_alphabet (choices draw (ascii_lowercase ++ digits) k n) = true.
Proof.
  apply forallb_forall. intros c Hc. unfold choices in Hc.
  apply in_map_iff in Hc. destruct Hc as [i [Hi _]]. subst c.
  unfold in_alphabet. apply existsb_exists.
  eexists. split; [| apply Ascii.eqb_refl].
  apply nth_In. apply Nat.mod_upper_bound. vm_compute. discriminate.
Qed.

Lemma string_of_list_ascii_length (l : list ascii) :
  String.length (string_of_list_ascii l) = List.length l.
Proof. induction l as [| c l IH]; [reflexivity |]. cbn. rewrite IH. reflexivity. Qed.

(** ** Claims about [register_account] *)

(** C3.  When the provider does not report success (the transport raises,
    the status is not 200, or the [success] field is not truthy),
    [register_account] returns [False] and the client is as it was: the
    stored address is unchanged, and absent if it was absent. *)
Theorem register_account_failure_keeps_address E domain st :
  provider_success (provider E (requests_made st) (registration_request E domain st)) = false ->
  exists st',
    register_account E domain st = (Return false, st') /\
    self st' = self st /\
    email (self st') = email (self st) /\
    (email (self st) = None_ -> email (self st') = None_).
Proof.
  intros Hfail.
  destruct (register_account_run E domain st)
    as [b [st' [evs [Hrun [_ [_ [_ [Hself [_ Hb]]]]]]]]].
  specialize (Hb Hfail). subst b. specialize (Hself eq_refl).
  exists st'. split; [exact Hrun |]. split; [exact Hself |].
  rewrite Hself. split; [reflexivity | auto].
Qed.

Lemma register_account_failure_keeps_address_witness :
  exists st',
    register_account (Demo.env Demo.down) (Some "example.org") (Demo.start None_)
      = (Return false, st') /\
    self st' = self (Demo.start None_) /\
    email (self st') = email (self (Demo.start None_)) /\
    (email (self (Demo.start None_)) = None_ -> email (self st') = None_).
Proof.
  apply (register_account_failure_keeps_address (Demo.env Demo.down) (Some "example.org")
           (Demo.start None_)).
  reflexivity.
Defined.

(** C5, as amended.  Every call of [register_account] sends one request to
    [/api/generate-email].  With a domain that is not empty it is a
    write-style request ([POST]) naming the domain and a local part of ten
    characters over the lowercase letters and the digits, made of ten draws
    that no earlier call has used.  With no domain, or with the empty
    string for a domain, it is a read-style request ([GET]) and nothing is
    drawn. *)
Theorem register_account_request E domain st :
  exists b st' evs r,
    register_account E domain st = (Return b, st') /\
    trace st' = (trace st ++ evs)%list /\
    requests_of evs = [r] /\
    req_url r = (base_url (self st) ++ "/api/generate-email")%string /\
    match domain with
    | Some d =>
        if (d =? "")%string
        then read_style r /\ draws_made st' = draws_made st
        else write_style d r /\
             req_json r =
               Some (JObj [("prefix",
                            JStr (string_of_list_ascii
                                    (choices (draw E) (ascii_lowercase ++ digits) 10
                                             (draws_made st))));
                           ("domain", JStr d)]) /\
             draws_made st' = (draws_made st + 10)%nat
    | None => read_style r /\ draws_made st' = draws_made st
    end.
Proof.
  destruct (register_account_run E domain st)
    as [b [st' [evs [Hrun [Hdraw [Htr [Hreq _]]]]]]].
  exists b, st', evs, (registration_request E domain st).
  split; [exact Hrun |]. split; [exact Htr |]. split; [exact Hreq |].
  unfold registration_request, read_style, write_style in *.
  destruct domain as [d |]; cbn [truthy_str] in *.
  - destruct (d =? "")%string; cbn [negb] in *; cbn [req_url req_method req_json].
    + rewrite Hdraw, Nat.add_0_r. repeat split.
    + split; [reflexivity |]. split; [| split; [reflexivity | exact Hdraw]].
      split; [reflexivity |]. eexists. split; [reflexivity |].
      rewrite string_of_list_ascii_length, choices_length,
        list_ascii_of_string_of_list_ascii, choices_in_alphabet.
      split; reflexivity.
  - cbn [req_url req_method req_json]. rewrite Hdraw, Nat.add_0_r. repeat split.
Qed.

(** C5 as it is stated fails for the empty string: a domain argument is
    given, and the request is a [GET] with no body. *)
Lemma register_account_empty_domain :
  map (fun r => (req_method r, req_json r))
      (requests_of (trace (snd (register_account (Demo.env (Demo.gives (JStr "x@y.z")))
                                  (Some "") (Demo.start None_)))))
  = [("GET", None)].
Proof. vm_compute. reflexivity. Qed.

(** ** Exceptions *)










(** ** Runs in the concrete world *)

(** A stale message and one with an unreadable timestamp: the code of the
    first is passed over, the code of the second is found at the first
    attempt. *)
Example poll_finds_code_after_stale_message :
  let box := [Demo.mail (JStr "2025-11-14 10:30:00") "Your code is 111111";
              Demo.mail (JStr "yesterday") "Your code is 222222"] in
  let run := poll_for_code (Demo.env (Demo.inbox box)) 12 4 (Some 20251114103500)
               (Demo.start (JStr "a@b.c")) in
  fst run = Return (Some "222222") /\
  schedule (trace (snd run)) = [Fetch] /\
  extracted (trace (snd run)) = ["Your code is 222222 "].
Proof. vm_compute. repeat split. Qed.

(** A [created_at] that is truthy and not a string makes [strptime] raise
    [TypeError], which the handler of the time filter does not catch: the
    fetch ends there with [None] and the extractor is not called. *)
Example non_string_timestamp_ends_fetch :
  let box := [Demo.mail (JNum 1763116200) "Your code is 111111"] in
  let run := _fetch_verification_code (Demo.env (Demo.inbox box)) (Some 20251114103500)
               (Demo.start (JStr "a@b.c")) in
  fst run = Return None /\
  extracted (trace (snd run)) = [] /\
  last (trace (snd run)) (EvSleep 0) = EvLog error (MsgFetchError TypeError).
Proof. vm_compute. repeat split. Qed.

(** A registration that succeeds stores the address the provider gives. *)
Example register_account_stores_address :
  let run := register_account (Demo.env (Demo.gives (JStr "x@y.z"))) (Some "y.z")
               (Demo.start None_) in
  fst run = Return true /\ email (self (snd run)) = JStr "x@y.z".
Proof. vm_compute. split; reflexivity. Qed.

(** * Further properties *)

(** ** One request at a time *)

Lemma silent_refl st : silent st st.
Proof.
  repeat split. exists []. rewrite app_nil_r. split; reflexivity.
Qed.

Lemma silent_trans st1 st2 st3 : silent st1 st2 -> silent st2 st3 -> silent st1 st3.
Proof.
  intros [Hs1 [Hr1 [Hd1 [e1 [Ht1 Hc1]]]]] [Hs2 [Hr2 [Hd2 [e2 [Ht2 Hc2]]]]].
  repeat split; try congruence.
  exists (e1 ++ e2)%list. split.
  - rewrite Ht2, Ht1, app_assoc. reflexivity.
  - rewrite schedule_app, Hc1, Hc2. reflexivity.
Qed.

Lemma silent_log lvl m st : silent st (snd (emit (EvLog lvl m) st)).
Proof. repeat split. exists [EvLog lvl m]. split; reflexivity. Qed.

Lemma silent_extract text st : silent st (snd (emit (EvExtract text) st)).
Proof. repeat split. exists [EvExtract text]. split; reflexivity. Qed.

Lemma silent__log lvl m : preserves silent (_log lvl m).
Proof. apply preserves__log; [apply silent_refl | apply silent_log]. Qed.

Lemma sent_then_silent r st1 st2 st3 : sent r st1 st2 -> silent st2 st3 -> sent r st1 st3.
Proof.
  intros [Hs1 [Hr1 [Hd1 [e1 [Ht1 [Hq1 Hc1]]]]]] [Hs2 [Hr2 [Hd2 [e2 [Ht2 Hc2]]]]].
  repeat split; try congruence.
  exists (e1 ++ e2)%list. split; [rewrite Ht2, Ht1, app_assoc; reflexivity |]. split.
  - rewrite requests_of_app, Hq1, (schedule_nil_requests _ Hc2). reflexivity.
  - rewrite schedule_app, Hc1, Hc2. reflexivity.
Qed.

Lemma sent_requested r st : sent r st (requested r st).
Proof.
  unfold requested. repeat split. cbn [logged trace].
  eexists. split; [rewrite <- app_assoc; reflexivity |].
  destruct (log_callback (self st)); split; reflexivity.
Qed.

(** What [_request] does when the provider answers. *)
Lemma _request_answered E method url j p st res :
  provider E (requests_made st) (mkRequest method url (request_headers (self st)) j p 15)
    = Answers res ->
  _request E method url j p st
  = (Return res, requested (mkRequest method url (request_headers (self st)) j p 15) st).
Proof.
  intros Hp. unfold _request. rewrite bind_get_self, bind__log.
  unfold try_except, requests_request. proj. rewrite Hp. reflexivity.
Qed.

(** What [_request] does when the transport raises. *)
Lemma _request_failed E method url j p st e :
  provider E (requests_made st) (mkRequest method url (request_headers (self st)) j p 15)
    = Fails e ->
  _request E method url j p st
  = (Raise e,
     logged error (MsgNetworkFailed e)
       (requested (mkRequest method url (request_headers (self st)) j p 15) st)).
Proof.
  intros Hp. unfold _request. rewrite bind_get_self, bind__log.
  unfold try_except, requests_request, Exception. proj. rewrite Hp.
  rewrite bind__log. reflexivity.
Qed.

(** A fetch sends the fetch request of the client, once, whatever comes
    back. *)
Lemma _fetch_sent E since_time st :
  sent (fetch_request (self st)) st (snd (_fetch_verification_code E since_time st)).
Proof.
  unfold _fetch_verification_code. rewrite bind_get_self.
  pose proof (sent_requested (fetch_request (self st)) st) as Hsent.
  assert (Hhandler : forall e st1, silent st1
            (snd ((_log error (MsgFetchError e) ;; ret (@None string)) st1))).
  { intros e st1. rewrite bind__log. cbn [snd ret].
    pose proof (silent__log error (MsgFetchError e) st1) as H.
    rewrite _log_trace in H. exact H. }
  unfold try_except, Exception.
  destruct (provider E (requests_made st) (fetch_request (self st))) as [e | res] eqn:Hp;
    unfold fetch_request in Hp.
  - rewrite (bind_Raise _ _ _ _ _ (_request_failed E _ _ _ _ st e Hp)).
    eapply sent_then_silent; [| apply Hhandler].
    eapply sent_then_silent; [exact Hsent |].
    pose proof (silent__log error (MsgNetworkFailed e)
                  (requested (fetch_request (self st)) st)) as H.
    rewrite _log_trace in H. exact H.
  - rewrite (bind_Return _ _ _ _ _ (_request_answered E _ _ _ _ st res Hp)).
    pose proof (preserves_scan_response E silent silent_refl silent_trans silent_log
                  silent_extract since_time res (requested (fetch_request (self st)) st))
      as Hscan.
    fold (fetch_request (self st)).
    destruct (_ (requested (fetch_request (self st)) st)) as [[r | e] st2]; cbn [snd] in *.
    + eapply sent_then_silent; [exact Hsent | exact Hscan].
    + eapply sent_then_silent; [| apply Hhandler].
      eapply sent_then_silent; [exact Hsent | exact Hscan].
Qed.

(** ** What polling may do *)

Section Polling.

Variable E : Env.
Variable since_time : option (since E).
Variable R : state -> state -> Prop.
Hypothesis R_refl : forall st, R st st.
Hypothesis R_trans : forall st1 st2 st3, R st1 st2 -> R st2 st3 -> R st1 st3.
Hypothesis R_log : forall lvl m st, R st (snd (emit (EvLog lvl m) st)).
Hypothesis R_sleep : forall s st, R st (snd (emit (EvSleep s) st)).
Hypothesis R_fetch : preserves R (_fetch_verification_code E since_time).

Lemma poll_attempt_preserves max_retries interval i :
  preserves R (poll_attempt E max_retries interval since_time i).
Proof.
  unfold poll_attempt.
  apply (preserves_bind R R_trans); [exact R_fetch |]. intros code.
  apply preserves_if; [apply (preserves_ret R R_refl) |].
  apply (preserves_bind R R_trans); [| intros; apply (preserves_ret R R_refl)].
  apply preserves_if; [| apply (preserves_ret R R_refl)].
  unfold sleep. apply preserves_if; [apply (preserves_raise R R_refl) |].
  intros st; apply R_sleep.
Qed.

Lemma poll_for_code_preserves timeout interval :
  preserves R (poll_for_code E timeout interval since_time).
Proof.
  unfold poll_for_code.
  apply (preserves_bind R R_trans); [apply (preserves_get_self R R_refl) |]. intros c.
  apply preserves_if.
  - apply (preserves_bind R R_trans); [apply (preserves__log R R_refl R_log) |].
    intros; apply (preserves_ret R R_refl).
  - apply (preserves_bind R R_trans).
    + unfold floordiv.
      apply preserves_if; [apply (preserves_raise R R_refl) | apply (preserves_ret R R_refl)].
    + intros max_retries.
      apply (preserves_bind R R_trans); [apply (preserves__log R R_refl R_log) |]. intros _.
      apply (preserves_bind R R_trans).
      * apply (preserves_for_in R R_refl R_trans). intros i. apply poll_attempt_preserves.
      * intros [code |]; [apply (preserves_ret R R_refl) |].
        apply (preserves_bind R R_trans); [apply (preserves__log R R_refl R_log) |].
        intros; apply (preserves_ret R R_refl).
Qed.

End Polling.

Lemma polling_refl st : polling st st.
Proof.
  repeat split. exists []. rewrite app_nil_r. cbn. repeat split; [constructor | lia].
Qed.

Lemma polling_trans st1 st2 st3 : polling st1 st2 -> polling st2 st3 -> polling st1 st3.
Proof.
  intros [Hs1 [Hd1 [e1 [Ht1 [Hf1 Hr1]]]]] [Hs2 [Hd2 [e2 [Ht2 [Hf2 Hr2]]]]].
  repeat split; try congruence.
  exists (e1 ++ e2)%list. split; [rewrite Ht2, Ht1, app_assoc; reflexivity |].
  rewrite requests_of_app, length_app. split.
  - apply Forall_app. split; [exact Hf1 |]. rewrite <- Hs1. exact Hf2.
  - lia.
Qed.

Lemma polling_quiet_event ev st :
  requests_of [ev] = [] -> polling st (snd (emit ev st)).
Proof.
  intros H. repeat split. exists [ev]. rewrite H. split; [reflexivity |].
  split; [constructor | cbn; lia].
Qed.

Lemma polling_fetch E since_time : preserves polling (_fetch_verification_code E since_time).
Proof.
  intros st. destruct (_fetch_sent E since_time st)
    as [Hs [Hr [Hd [evs [Ht [Hq _]]]]]].
  repeat split; try assumption.
  exists evs. rewrite Hq. cbn [List.length]. split; [assumption |].
  split; [| lia]. constructor; [reflexivity | constructor].
Qed.

(** X4.  Whatever the arguments and the provider, [poll_for_code] leaves
    the client and the random generator as they were, and every request it
    sends is the same one: a [GET] of [/api/emails] for the stored address,
    with the headers of the client and the 15 second timeout; the count of
    requests made grows by the number sent. *)
Theorem poll_for_code_sends_only_fetches E timeout interval since_time st :
  exists evs,
    self (snd (poll_for_code E timeout interval since_time st)) = self st /\
    draws_made (snd (poll_for_code E timeout interval since_time st)) = draws_made st /\
    trace (snd (poll_for_code E timeout interval since_time st)) = (trace st ++ evs)%list /\
    requests_made (snd (poll_for_code E timeout interval since_time st))
      = (requests_made st + List.length (requests_of evs))%nat /\
    forall r, In r (requests_of evs) ->
      req_method r = "GET" /\
      req_url r = (base_url (self st) ++ "/api/emails")%string /\
      req_params r = Some [("email", email (self st))] /\
      req_json r = None /\
      req_headers r = request_headers (self st) /\
      req_timeout r = 15.
Proof.
  destruct (poll_for_code_preserves E since_time polling polling_refl polling_trans
              (fun lvl m st0 => polling_quiet_event (EvLog lvl m) st0 eq_refl)
              (fun s st0 => polling_quiet_event (EvSleep s) st0 eq_refl)
              (polling_fetch E since_time) timeout interval st)
    as [Hs [Hd [evs [Ht [Hf Hr]]]]].
  exists evs. repeat split; try assumption;
    rewrite Forall_forall in Hf; rewrite (Hf r H); reflexivity.
Qed.

(** ** The schedule of a poll, whatever the provider does *)

Lemma prefix_of_refl {A} (a : list A) : prefix_of a a.
Proof. exists []. symmetry; apply app_nil_r. Qed.

Lemma prefix_of_nil {A} (a : list A) : prefix_of [] a.
Proof. exists a. reflexivity. Qed.

Lemma prefix_of_app {A} (a b c : list A) : prefix_of b c -> prefix_of (a ++ b) (a ++ c).
Proof. intros [rest H]. exists rest. rewrite H, app_assoc. reflexivity. Qed.

(** One turn of the loop: either it finds nothing and does what [turn]
    says, or the loop ends with it (a code, or an exception at the sleep)
    and it has made its fetch and no more. *)
Lemma poll_attempt_turn E max_retries interval since_time i st :
  exists evs,
    trace (snd (poll_attempt E max_retries interval since_time i st)) = (trace st ++ evs)%list /\
    ((fst (poll_attempt E max_retries interval since_time i st) = Return None /\
      schedule evs = turn max_retries interval i) \/
     (fst (poll_attempt E max_retries interval since_time i st) <> Return None /\
      schedule evs = [Fetch])).
Proof.
  unfold poll_attempt. rewrite bind_case.
  destruct (_fetch_sent E since_time st) as [_ [_ [_ [evs [Ht [_ Hsch]]]]]].
  destruct (_fetch_verification_code E since_time st) as [[code | e] st1]; cbn [snd] in *.
  - destruct (truthy_str code) eqn:Hcode.
    + exists evs. split; [exact Ht |]. right. split; [| exact Hsch].
      cbn [fst ret]. intros Heq. inversion Heq. subst code. discriminate.
    + unfold turn. destruct (i <? max_retries).
      * unfold sleep. destruct (interval <? 0).
        -- rewrite bind_raise. exists evs. split; [exact Ht |]. right.
           split; [discriminate | exact Hsch].
        -- unfold bind, emit, ret. cbn [fst snd trace].
           exists (evs ++ [EvSleep interval])%list.
           split; [rewrite Ht, app_assoc; reflexivity |]. left.
           split; [reflexivity |]. rewrite schedule_app, Hsch. reflexivity.
      * rewrite bind_ret. cbn [fst snd ret]. exists evs. split; [exact Ht |]. left.
        split; [reflexivity | exact Hsch].
  - exists evs. split; [exact Ht |]. right. split; [discriminate | exact Hsch].
Qed.

Lemma poll_loop_prefix E max_retries interval since_time indices :
  forall st, exists evs,
    trace (snd (for_in indices (poll_attempt E max_retries interval since_time) st))
      = (trace st ++ evs)%list /\
    prefix_of (schedule evs) (List.concat (map (turn max_retries interval) indices)).
Proof.
  induction indices as [| i rest IH]; intros st; cbn [for_in map List.concat].
  - exists []. cbn [snd ret]. rewrite app_nil_r. split; [reflexivity | apply prefix_of_nil].
  - rewrite bind_case.
    destruct (poll_attempt_turn E max_retries interval since_time i st) as [evs [Ht Hcase]].
    destruct (poll_attempt E max_retries interval since_time i st) as [[[v |] | e] st1];
      cbn [fst snd] in *.
    + exists evs. split; [exact Ht |].
      destruct Hcase as [[Habs _] | [_ Hsch]]; [discriminate |].
      rewrite Hsch. exists (tl (turn max_retries interval i)
                            ++ List.concat (map (turn max_retries interval) rest))%list.
      reflexivity.
    + destruct Hcase as [[_ Hsch] | [Habs _]]; [| contradiction].
      destruct (IH st1) as [evs2 [Ht2 Hpre]].
      exists (evs ++ evs2)%list. split; [rewrite Ht2, Ht, app_assoc; reflexivity |].
      rewrite schedule_app, Hsch. apply prefix_of_app. exact Hpre.
    + exists evs. split; [exact Ht |].
      destruct Hcase as [[Habs _] | [_ Hsch]]; [discriminate |].
      rewrite Hsch. exists (tl (turn max_retries interval i)
                            ++ List.concat (map (turn max_retries interval) rest))%list.
      reflexivity.
Qed.

Lemma poll_for_code_prefix E timeout interval since_time st :
  exists evs,
    trace (snd (poll_for_code E timeout interval since_time st)) = (trace st ++ evs)%list /\
    prefix_of (schedule evs) (polling_schedule (Z.to_nat (timeout / interval)) interval).
Proof.
  assert (Hlog : forall lvl m st0 evs sch,
            trace st0 = (trace st ++ evs)%list -> prefix_of (schedule evs) sch ->
            exists evs', trace (logged lvl m st0) = (trace st ++ evs')%list /\
                         prefix_of (schedule evs') sch).
  { intros lvl m st0 evs sch Ht Hp. cbn [logged trace]. rewrite Ht, <- app_assoc.
    eexists. split; [reflexivity |]. rewrite schedule_app.
    destruct (log_callback (self st0)); cbn [schedule]; rewrite app_nil_r; exact Hp. }
  unfold poll_for_code. rewrite bind_get_self.
  destruct (truthy (email (self st))); cbn [negb].
  - unfold floordiv. destruct (interval =? 0).
    + rewrite bind_raise. exists []. cbn [snd]. rewrite app_nil_r.
      split; [reflexivity | apply prefix_of_nil].
    + rewrite bind_ret, bind__log, bind_case.
      destruct (poll_loop_prefix E (timeout / interval) interval since_time
                  (range 1 (timeout / interval + 1)) (logged info (MsgPolling timeout) st))
        as [evs [Ht Hp]].
      rewrite range_schedule in Hp.
      assert (Ht' : exists evs',
                trace (snd (for_in (range 1 (timeout / interval + 1))
                              (poll_attempt E (timeout / interval) interval since_time)
                              (logged info (MsgPolling timeout) st)))
                = (trace st ++ evs')%list /\
                prefix_of (schedule evs')
                  (polling_schedule (Z.to_nat (timeout / interval)) interval)).
      { rewrite Ht. cbn [logged trace]. rewrite <- app_assoc. eexists. split; [reflexivity |].
        rewrite schedule_app. destruct (log_callback (self st)); exact Hp. }
      clear Ht Hp. destruct Ht' as [evs' [Ht Hp]].
      destruct (for_in _ _ _) as [[[code |] | e] st2]; cbn [snd ret] in *.
      * exists evs'. split; assumption.
      * rewrite bind__log. cbn [snd ret]. eapply Hlog; eassumption.
      * exists evs'. split; assumption.
  - rewrite bind__log. cbn [snd ret].
    apply (Hlog error MsgNoEmail st []); [symmetry; apply app_nil_r | apply prefix_of_nil].
Qed.

Lemma prefix_of_filter_length {A} (p : A -> bool) (a b : list A) :
  prefix_of a b -> (List.length (filter p a) <= List.length (filter p b))%nat.
Proof. intros [rest H]. subst b. rewrite filter_app, length_app. lia. Qed.

Lemma slept_app (a b : list step) : slept (a ++ b) = slept a + slept b.
Proof.
  induction a as [| s a IH]; [reflexivity |].
  destruct s; cbn [app slept]; rewrite IH; lia.
Qed.

Lemma polling_schedule_S n interval :
  polling_schedule (S (S n)) interval = Fetch :: Sleep interval :: polling_schedule (S n) interval.
Proof. reflexivity. Qed.

Lemma polling_schedule_slept n interval :
  slept (polling_schedule n interval) = interval * Z.of_nat (Nat.pred n).
Proof.
  induction n as [| n IH]; [cbn; lia |].
  destruct n as [| n']; [cbn; lia |].
  rewrite polling_schedule_S. cbn [slept]. rewrite IH. cbn [Nat.pred]. lia.
Qed.

Lemma polling_schedule_steps n interval :
  Forall (fun s => s = Fetch \/ s = Sleep interval) (polling_schedule n interval).
Proof.
  induction n as [| n IH]; [constructor |].
  destruct n as [| n']; [repeat constructor |].
  rewrite polling_schedule_S. constructor; [left; reflexivity |].
  constructor; [right; reflexivity | exact IH].
Qed.

Lemma slept_nonneg interval (sch : list step) :
  0 <= interval ->
  Forall (fun s => s = Fetch \/ s = Sleep interval) sch -> 0 <= slept sch.
Proof.
  intros Hi H. induction H as [| s sch [Hs | Hs] _ IH]; cbn [slept]; [lia | |];
    subst s; lia.
Qed.

(** X1.  Whatever the arguments, the state and the provider, the fetches
    and sleeps of a call of [poll_for_code] are an initial segment of
    fetch, sleep [interval], fetch, ..., fetch with
    [max(0, timeout // interval)] fetches: it never makes more requests
    than that, and it sleeps only right after a request and only
    [interval] seconds at a time. *)
Theorem poll_for_code_schedule_bounded E timeout interval since_time st :
  exists evs,
    trace (snd (poll_for_code E timeout interval since_time st)) = (trace st ++ evs)%list /\
    prefix_of (schedule evs) (polling_schedule (Z.to_nat (timeout / interval)) interval) /\
    (fetches evs <= Z.to_nat (timeout / interval))%nat /\
    (sleeps evs <= Nat.pred (Z.to_nat (timeout / interval)))%nat.
Proof.
  destruct (poll_for_code_prefix E timeout interval since_time st) as [evs [Ht Hp]].
  exists evs. split; [exact Ht |]. split; [exact Hp |].
  destruct (polling_schedule_fetches (Z.to_nat (timeout / interval)) interval) as [Hf Hs].
  unfold fetches, sleeps. split.
  - pose proof (prefix_of_filter_length is_fetch _ _ Hp) as H. rewrite Hf in H. exact H.
  - pose proof (prefix_of_filter_length (fun s => negb (is_fetch s)) _ _ Hp) as H.
    rewrite Hs in H. exact H.
Qed.

(** X2.  With a positive interval the time [poll_for_code] spends in
    [time.sleep] is at most [timeout - interval], and nothing when the
    timeout is below the interval: the sleeping alone never reaches the
    timeout. *)
Theorem poll_for_code_sleep_bounded E timeout interval since_time st :
  0 < interval ->
  exists evs,
    trace (snd (poll_for_code E timeout interval since_time st)) = (trace st ++ evs)%list /\
    0 <= slept (schedule evs) <= Z.max 0 (timeout - interval).
Proof.
  intros Hi.
  destruct (poll_for_code_prefix E timeout interval since_time st) as [evs [Ht [rest Hp]]].
  exists evs. split; [exact Ht |].
  pose proof (polling_schedule_slept (Z.to_nat (timeout / interval)) interval) as Htotal.
  pose proof (polling_schedule_steps (Z.to_nat (timeout / interval)) interval) as Hsteps.
  rewrite Hp in Htotal, Hsteps. rewrite slept_app in Htotal.
  apply Forall_app in Hsteps. destruct Hsteps as [Ha Hrest].
  pose proof (slept_nonneg interval _ ltac:(lia) Ha).
  pose proof (slept_nonneg interval _ ltac:(lia) Hrest).
  split; [assumption |].
  destruct (Z.le_gt_cases (timeout / interval) 0) as [Hq | Hq].
  - replace (Z.to_nat (timeout / interval)) with 0%nat in Htotal by lia.
    cbn [Nat.pred Z.of_nat] in Htotal. lia.
  - pose proof (Z.mul_div_le timeout interval Hi).
    replace (Z.of_nat (Nat.pred (Z.to_nat (timeout / interval))))
      with (timeout / interval - 1) in Htotal by lia.
    nia.
Qed.

Lemma poll_for_code_sleep_bounded_witness :
  exists evs,
    trace (snd (poll_for_code (Demo.env Demo.down) 12 4 None (Demo.start (JStr "a@b.c"))))
      = (trace (Demo.start (JStr "a@b.c")) ++ evs)%list /\
    0 <= slept (schedule evs) <= Z.max 0 (12 - 4).
Proof.
  apply (poll_for_code_sleep_bounded (Demo.env Demo.down) 12 4 None (Demo.start (JStr "a@b.c"))).
  lia.
Defined.

(** ** Where a code comes from *)

Lemma extends_refl st : extends st st.
Proof. exists []. symmetry; apply app_nil_r. Qed.

Lemma extends_trans st1 st2 st3 : extends st1 st2 -> extends st2 st3 -> extends st1 st3.
Proof.
  intros [e1 H1] [e2 H2]. exists (e1 ++ e2)%list. rewrite H2, H1, app_assoc. reflexivity.
Qed.

Lemma extends_emit ev st : extends st (snd (emit ev st)).
Proof. exists [ev]. reflexivity. Qed.

Lemma extracted_code_after E st1 st2 st3 c :
  extends st1 st2 -> extracted_code E st2 st3 c -> extracted_code E st1 st3 c.
Proof.
  intros [e1 H1] [Hc [evs [text [Ht [Hin Hx]]]]]. split; [exact Hc |].
  exists (e1 ++ evs)%list, text. split; [rewrite Ht, H1, app_assoc; reflexivity |].
  split; [apply in_or_app; right; exact Hin | exact Hx].
Qed.

Lemma returns_extracted_bind {A} E (m : M A) (k : A -> M (option string)) :
  preserves extends m -> (forall a, returns_extracted E (k a)) ->
  returns_extracted E (bind m k).
Proof.
  intros Hm Hk st c. rewrite bind_case. specialize (Hm st).
  destruct (m st) as [[a | e] st1]; cbn [snd] in *; [| discriminate].
  intros Hc. eapply extracted_code_after; [exact Hm | apply Hk; exact Hc].
Qed.

Lemma returns_extracted_none E (m : M (option string)) :
  (forall st c, fst (m st) <> Return (Some c)) -> returns_extracted E m.
Proof. intros H st c Hc. destruct (H st c Hc). Qed.

Lemma returns_extracted_if E (b : bool) (m1 m2 : M (option string)) :
  returns_extracted E m1 -> returns_extracted E m2 ->
  returns_extracted E (if b then m1 else m2).
Proof. destruct b; auto. Qed.

Lemma returns_extracted_for_in {A} E (body : A -> M (option string)) (xs : list A) :
  (forall x, preserves extends (body x)) -> (forall x, returns_extracted E (body x)) ->
  returns_extracted E (for_in xs body).
Proof.
  intros Hp Hb. induction xs as [| x rest IH]; cbn [for_in].
  - apply returns_extracted_none. intros st c. discriminate.
  - intros st c. rewrite bind_case. specialize (Hp x st). specialize (Hb x st).
    destruct (body x st) as [[[v |] | e] st1]; cbn [fst snd] in *; try discriminate.
    + intros Hc. apply Hb. exact Hc.
    + intros Hc. eapply extracted_code_after; [exact Hp | apply IH; exact Hc].
Qed.

Lemma returns_extracted_try E cls (body : M (option string)) handler :
  returns_extracted E body ->
  (forall e st c, fst (handler e st) <> Return (Some c)) ->
  returns_extracted E (try_except cls body handler).
Proof.
  intros Hb Hh st c. unfold try_except. specialize (Hb st c).
  destruct (body st) as [[v | e] st1]; cbn [fst snd] in *; [exact Hb |].
  destruct (cls e); [| discriminate]. intros Hc. destruct (Hh e st1 c Hc).
Qed.

(** The content check raises, without calling the extractor, when the
    message is not an object or one of its two texts is not a string. *)
Lemma check_content_raises E msg st :
  match msg with
  | JObj fields =>
      (field_text "content" fields = None \/ field_text "html_content" fields = None) ->
      check_content E msg st = (Raise TypeError, st)
  | _ => check_content E msg st = (Raise AttributeError, st)
  end.
Proof.
  destruct msg as [| b | n | s | items | fields]; try reflexivity.
  unfold field_text, check_content, py_get.
  destruct (lookup "content" fields) as [[] |];
    destruct (lookup "html_content" fields) as [[] |];
    intros [H | H]; try discriminate; reflexivity.
Qed.

Lemma check_content_returns_extracted E msg : returns_extracted E (check_content E msg).
Proof.
  intros st c Hc. destruct msg as [| b | n | s | items | fields];
    try (match type of Hc with
         | context [check_content E ?m st] =>
             rewrite (check_content_raises E m st) in Hc; discriminate
         end).
  destruct (field_text "content" fields) as [t1 |] eqn:H1;
    [| rewrite (check_content_raises E (JObj fields) st (or_introl H1)) in Hc; discriminate].
  destruct (field_text "html_content" fields) as [t2 |] eqn:H2;
    [| rewrite (check_content_raises E (JObj fields) st (or_intror H2)) in Hc; discriminate].
  destruct (check_content_extracts E fields t1 t2 st H1 H2) as [st' [evs [Hrun [Ht _]]]].
  rewrite Hrun in Hc |- *. cbn [fst snd] in *.
  destruct (truthy_str (extract_verification_code E (t1 ++ " " ++ t2))) eqn:Htruthy;
    [| discriminate].
  assert (Hx : extract_verification_code E (t1 ++ " " ++ t2) = Some c) by congruence.
  clear Hc. rewrite Hx in Htruthy. split.
  - cbn [truthy_str] in Htruthy. intros Heq. subst c. discriminate.
  - exists (EvExtract (t1 ++ " " ++ t2) :: evs), (t1 ++ " " ++ t2)%string.
    split; [exact Ht |]. split; [left; reflexivity | exact Hx].
Qed.

Lemma extends_scan_message E since_time msg : preserves extends (scan_message E since_time msg).
Proof.
  apply (preserves_scan_message E extends extends_refl extends_trans);
    intros; apply extends_emit.
Qed.

Lemma scan_message_returns_extracted E since_time msg :
  returns_extracted E (scan_message E since_time msg).
Proof.
  unfold scan_message. apply returns_extracted_bind.
  - apply (preserves_stale E extends extends_refl extends_trans).
  - intros skip. apply returns_extracted_if;
      [apply returns_extracted_none; intros st c; discriminate
      | apply check_content_returns_extracted].
Qed.

Lemma extends__request E method url j p : preserves extends (_request E method url j p).
Proof.
  apply (preserves__request E extends extends_refl extends_trans).
  - intros; apply extends_emit.
  - intros; apply extends_emit.
  - intros st. exists []. symmetry; apply app_nil_r.
Qed.

Lemma _fetch_returns_extracted E since_time :
  returns_extracted E (_fetch_verification_code E since_time).
Proof.
  assert (Hget : forall v key d, preserves extends (py_get v key d)).
  { intros; apply (preserves_py_get extends extends_refl). }
  unfold _fetch_verification_code.
  apply returns_extracted_bind; [apply (preserves_get_self extends extends_refl) |].
  intros c. apply returns_extracted_try.
  - apply returns_extracted_bind; [apply extends__request |]. intros res.
    apply returns_extracted_if; [apply returns_extracted_none; intros; discriminate |].
    apply returns_extracted_bind; [apply (preserves_res_json extends extends_refl) |].
    intros data. apply returns_extracted_bind; [apply Hget |]. intros success.
    apply returns_extracted_if; [apply returns_extracted_none; intros; discriminate |].
    apply returns_extracted_bind; [apply Hget |]. intros d.
    apply returns_extracted_bind; [apply Hget |]. intros emails.
    apply returns_extracted_if; [apply returns_extracted_none; intros; discriminate |].
    apply returns_extracted_bind; [apply (preserves_py_iter extends extends_refl) |].
    intros msgs. apply returns_extracted_for_in.
    + intros msg. apply extends_scan_message.
    + intros msg. apply scan_message_returns_extracted.
  - intros e st c0. rewrite bind__log. discriminate.
Qed.

Lemma extends__fetch E since_time : preserves extends (_fetch_verification_code E since_time).
Proof.
  intros st. destruct (_fetch_sent E since_time st) as [_ [_ [_ [evs [Ht _]]]]].
  exists evs. exact Ht.
Qed.

Lemma poll_attempt_returns_extracted E max_retries interval since_time i :
  returns_extracted E (poll_attempt E max_retries interval since_time i).
Proof.
  intros st c. unfold poll_attempt. rewrite bind_case.
  pose proof (_fetch_returns_extracted E since_time st) as Hf.
  destruct (_fetch_verification_code E since_time st) as [[code | e] st1];
    cbn [fst snd] in *; [| discriminate].
  destruct (truthy_str code).
  - cbn [fst snd ret]. intros Hc. apply Hf. exact Hc.
  - rewrite bind_case. destruct (_ st1) as [[[] | e] st2]; discriminate.
Qed.

(** X5.  A code that [poll_for_code] (or a single fetch) returns is never
    empty, and it is a code the extractor gave, during that call, for a
    text it was passed. *)
Theorem returned_code_comes_from_extractor E timeout interval since_time st c :
  (fst (_fetch_verification_code E since_time st) = Return (Some c) ->
   extracted_code E st (snd (_fetch_verification_code E since_time st)) c) /\
  (fst (poll_for_code E timeout interval since_time st) = Return (Some c) ->
   extracted_code E st (snd (poll_for_code E timeout interval since_time st)) c).
Proof.
  split; [apply _fetch_returns_extracted |].
  revert st c.
  change (returns_extracted E (poll_for_code E timeout interval since_time)).
  unfold poll_for_code.
  apply returns_extracted_bind; [apply (preserves_get_self extends extends_refl) |].
  intros cl. apply returns_extracted_if.
  { apply returns_extracted_none. intros st c. rewrite bind__log. discriminate. }
  apply returns_extracted_bind.
  { unfold floordiv. apply preserves_if;
      [apply (preserves_raise extends extends_refl) | apply (preserves_ret extends extends_refl)]. }
  intros max_retries.
  apply returns_extracted_bind.
  { apply (preserves__log extends extends_refl). intros; apply extends_emit. }
  intros _ st c. rewrite bind_case.
  pose proof (returns_extracted_for_in E
                (poll_attempt E max_retries interval since_time)
                (range 1 (max_retries + 1))
                (fun i => poll_attempt_preserves E since_time extends extends_refl extends_trans
                            (fun s st0 => extends_emit (EvSleep s) st0)
                            (extends__fetch E since_time) max_retries interval i)
                (poll_attempt_returns_extracted E max_retries interval since_time) st) as Hloop.
  destruct (for_in _ _ st) as [[[code |] | e] st1]; cbn [fst snd ret] in *.
  - intros Hc. apply Hloop. exact Hc.
  - rewrite bind__log. discriminate.
  - discriminate.
Qed.

Lemma returned_code_comes_from_extractor_witness :
  extracted_code (Demo.env (Demo.inbox [Demo.mail None_ "Your code is 424242"]))
    (Demo.start (JStr "a@b.c"))
    (snd (poll_for_code (Demo.env (Demo.inbox [Demo.mail None_ "Your code is 424242"]))
            12 4 None (Demo.start (JStr "a@b.c"))))
    "424242".
Proof.
  destruct (returned_code_comes_from_extractor
              (Demo.env (Demo.inbox [Demo.mail None_ "Your code is 424242"]))
              12 4 None (Demo.start (JStr "a@b.c")) "424242") as [_ Hpoll].
  apply Hpoll. reflexivity.
Defined.

(** ** A code that arrives late *)






(** ** What a fetch makes of an answer *)

Lemma extracted_app (a b : list event) :
  extracted (a ++ b) = (extracted a ++ extracted b)%list.
Proof.
  induction a as [| ev a IH]; [reflexivity |].
  destruct ev; cbn [extracted app]; rewrite IH; reflexivity.
Qed.

(** The fetch gets to line 120 exactly as [served] says, and goes on from
    the state in which the answer arrived: with nothing to scan it returns
    [None] there; with a list of messages it scans them, and an exception
    of the scan is logged and becomes [None]. *)
Lemma _fetch_served E since_time st emails :
  served (provider E (requests_made st) (fetch_request (self st))) = Some emails ->
  _fetch_verification_code E since_time st
  = if truthy emails then
      match
        (msgs <- py_iter emails ;; for_in msgs (scan_message E since_time))
          (requested (fetch_request (self st)) st)
      with
      | (Return r, st2) => (Return r, st2)
      | (Raise e, st2) => (Return None, logged error (MsgFetchError e) st2)
      end
    else (Return None, requested (fetch_request (self st)) st).
Proof.
  unfold served. intros Hserved.
  destruct (provider E (requests_made st) (fetch_request (self st))) as [e | res] eqn:Hp;
    [discriminate |].
  destruct (status_code res =? 200) eqn:Hstatus; [| discriminate].
  destruct (body res) as [[| | | | | fields] |] eqn:Hbody; try discriminate.
  destruct (lookup "success" fields) as [v |] eqn:Hsuccess; [| discriminate].
  destruct (truthy v) eqn:Hv; [| discriminate].
  unfold _fetch_verification_code. rewrite bind_get_self.
  unfold fetch_request in Hp.
  unfold try_except, Exception.
  rewrite (bind_Return _ _ _ _ _ (_request_answered E _ _ _ _ st res Hp)).
  fold (fetch_request (self st)).
  rewrite Hstatus. cbn [negb]. unfold res_json. rewrite Hbody, bind_ret.
  unfold py_get at 1. rewrite Hsuccess, bind_ret, Hv. cbn [negb].
  unfold py_get at 1.
  destruct (lookup "data" fields) as [[| | | | | data] |]; try discriminate;
    rewrite bind_ret; unfold py_get at 1.
  - destruct (lookup "emails" data) as [found |]; inversion Hserved; subst emails;
      rewrite bind_ret.
    + destruct (truthy found); cbn [negb]; [| reflexivity].
      match goal with
      | |- _ = match ?run with _ => _ end => destruct run as [[r | e] st2]
      end; [reflexivity | rewrite bind__log; reflexivity].
    + reflexivity.
  - inversion Hserved; subst emails. cbn [lookup]. rewrite bind_ret. reflexivity.
Qed.

(** X8.  When the provider answers 200 with a truthy [success] and there
    is nothing to scan (no [data], no [emails], or [emails] empty or
    otherwise falsy), the fetch returns [None] as soon as the answer is in:
    the extractor is not called and no error is logged. *)
Theorem fetch_with_nothing_to_scan E since_time st emails :
  served (provider E (requests_made st) (fetch_request (self st))) = Some emails ->
  truthy emails = false ->
  _fetch_verification_code E since_time st
    = (Return None, requested (fetch_request (self st)) st) /\
  extracted (trace (requested (fetch_request (self st)) st)) = extracted (trace st) /\
  (forall m, In (EvLog error m) (trace (requested (fetch_request (self st)) st)) ->
             In (EvLog error m) (trace st)).
Proof.
  intros Hserved Hfalsy.
  rewrite (_fetch_served E since_time st emails Hserved), Hfalsy.
  split; [reflexivity |]. unfold requested, logged. cbn [trace].
  split.
  - rewrite !extracted_app. destruct (log_callback (self st)); cbn [extracted];
      rewrite !app_nil_r; reflexivity.
  - intros m Hin. apply in_app_or in Hin. destruct Hin as [Hin | [Hin | []]];
      [| discriminate].
    apply in_app_or in Hin. destruct Hin as [Hin | Hin]; [exact Hin |].
    destruct (log_callback (self st)); [destruct Hin as [Hin | []]; discriminate | destruct Hin].
Qed.

Lemma fetch_with_nothing_to_scan_witness :
  _fetch_verification_code
    (Demo.env (fun _ _ => Answers (mkResponse 200 (Some (JObj [("success", JBool true)])))))
    None (Demo.start (JStr "a@b.c"))
  = (Return None, requested (fetch_request (self (Demo.start (JStr "a@b.c"))))
                            (Demo.start (JStr "a@b.c"))).
Proof.
  destruct (fetch_with_nothing_to_scan
              (Demo.env (fun _ _ =>
                 Answers (mkResponse 200 (Some (JObj [("success", JBool true)])))))
              None (Demo.start (JStr "a@b.c")) (JArr []) eq_refl eq_refl) as [Hrun _].
  exact Hrun.
Defined.

Lemma for_in_skip_all {A B} (body : A -> M (option B)) (pre rest : list A) :
  (forall x, In x pre -> forall st, body x st = (Return None, st)) ->
  forall st, for_in (pre ++ rest) body st = for_in rest body st.
Proof.
  induction pre as [| x pre IH]; intros Hskip st; [reflexivity |].
  cbn [app for_in]. rewrite (bind_Return _ _ _ _ _ (Hskip x (or_introl eq_refl) st)).
  apply IH. intros y Hy. apply Hskip. right. exact Hy.
Qed.

Lemma truthy_messages (pre : list json) m rest : truthy (JArr (pre ++ m :: rest)) = true.
Proof. destruct pre; reflexivity. Qed.

Lemma extracted_requested r st : extracted (trace (requested r st)) = extracted (trace st).
Proof.
  unfold requested, logged. cbn [trace]. rewrite !extracted_app.
  destruct (log_callback (self st)); cbn [extracted]; rewrite !app_nil_r; reflexivity.
Qed.

(** X6.  The first message that passes the time filter and in whose text
    the extractor finds a code decides the fetch: messages before it that
    the filter skips do not matter, the extractor is called once, on that
    message, and whatever follows it in the list is never looked at. *)
Theorem fetch_returns_first_code E since_time st pre fields rest c h code :
  served (provider E (requests_made st) (fetch_request (self st)))
    = Some (JArr (pre ++ JObj fields :: rest)) ->
  (forall p, In p pre -> forall st0, scan_message E since_time p st0 = (Return None, st0)) ->
  (forall st0, stale E since_time (JObj fields) st0 = (Return false, st0)) ->
  field_text "content" fields = Some c ->
  field_text "html_content" fields = Some h ->
  extract_verification_code E (c ++ " " ++ h) = Some code ->
  code <> ""%string ->
  exists st',
    _fetch_verification_code E since_time st = (Return (Some code), st') /\
    extracted (trace st') = (extracted (trace st) ++ [(c ++ " " ++ h)%string])%list.
Proof.
  intros Hserved Hpre Hpass Hc Hh Hx Hcode.
  rewrite (_fetch_served E since_time st _ Hserved), truthy_messages.
  cbn [py_iter]. rewrite bind_ret, (for_in_skip_all _ _ _ Hpre). cbn [for_in].
  unfold scan_message at 1. rewrite bind_case, (bind_Return _ _ _ _ _ (Hpass _)).
  destruct (check_content_extracts E fields c h
              (requested (fetch_request (self st)) st) Hc Hh)
    as [st' [evs [Hrun [Ht Hex]]]].
  rewrite Hrun, Hx. cbn [truthy_str]. apply String.eqb_neq in Hcode. rewrite Hcode.
  cbn [negb]. exists st'. split; [reflexivity |].
  rewrite Ht, extracted_app, Hex, extracted_requested. reflexivity.
Qed.

Lemma fetch_returns_first_code_witness :
  exists st',
    _fetch_verification_code
      (Demo.env (Demo.inbox [Demo.mail (JStr "2025-11-14 10:30:00") "Your code is 111111";
                             Demo.mail None_ "Your code is 222222";
                             JNull]))
      (Some 20251114103500) (Demo.start (JStr "a@b.c"))
    = (Return (Some "222222"), st') /\
    extracted (trace st')
    = (extracted (trace (Demo.start (JStr "a@b.c"))) ++ ["Your code is 222222" ++ " " ++ ""]%string)%list.
Proof.
  apply (fetch_returns_first_code
           (Demo.env (Demo.inbox [Demo.mail (JStr "2025-11-14 10:30:00") "Your code is 111111";
                                  Demo.mail None_ "Your code is 222222";
                                  JNull]))
           (Some 20251114103500) (Demo.start (JStr "a@b.c"))
           [Demo.mail (JStr "2025-11-14 10:30:00") "Your code is 111111"]
           [("created_at", None_); ("content", JStr "Your code is 222222");
            ("html_content", JStr "")]
           [JNull] "Your code is 222222" "" "222222").
  - reflexivity.
  - intros p [Hp | []] st0. subst p. reflexivity.
  - intros st0. reflexivity.
  - reflexivity.
  - reflexivity.
  - reflexivity.
  - discriminate.
Defined.

Lemma scan_message_not_object E since_time msg st :
  match msg with JObj _ => True | _ => scan_message E since_time msg st = (Raise AttributeError, st) end.
Proof. destruct msg; try exact I; destruct since_time; reflexivity. Qed.

(** X7.  A message that is not an object, or one that passes the time
    filter and whose [content] or [html_content] is present and not a
    string, ends the fetch: it returns [None] with the exception logged
    ([AttributeError] for the first, [TypeError] for the second), the
    extractor is not called on it, and the messages after it are not
    scanned, whatever they hold. *)
Theorem fetch_aborts_on_malformed_message E since_time st pre bad rest :
  served (provider E (requests_made st) (fetch_request (self st)))
    = Some (JArr (pre ++ bad :: rest)) ->
  (forall p, In p pre -> forall st0, scan_message E since_time p st0 = (Return None, st0)) ->
  match bad with
  | JObj fields =>
      (forall st0, stale E since_time bad st0 = (Return false, st0)) /\
      (field_text "content" fields = None \/ field_text "html_content" fields = None)
  | _ => True
  end ->
  _fetch_verification_code E since_time st
  = (Return None,
     logged error
       (MsgFetchError match bad with JObj _ => TypeError | _ => AttributeError end)
       (requested (fetch_request (self st)) st)).
Proof.
  intros Hserved Hpre Hbad.
  rewrite (_fetch_served E since_time st _ Hserved), truthy_messages.
  cbn [py_iter]. rewrite bind_ret, (for_in_skip_all _ _ _ Hpre). cbn [for_in].
  rewrite bind_case.
  pose proof (scan_message_not_object E since_time bad
                (requested (fetch_request (self st)) st)) as Hno.
  destruct bad as [| b | n | s | items | fields]; try (rewrite Hno; reflexivity).
  destruct Hbad as [Hpass Htext].
  unfold scan_message. rewrite (bind_Return _ _ _ _ _ (Hpass _)).
  rewrite (check_content_raises E (JObj fields) _ Htext). reflexivity.
Qed.

Lemma fetch_aborts_on_malformed_message_witness :
  _fetch_verification_code
    (Demo.env (Demo.inbox [JObj [("content", JStr "hello"); ("html_content", JNull)];
                           Demo.mail None_ "Your code is 222222"]))
    None (Demo.start (JStr "a@b.c"))
  = (Return None,
     logged error (MsgFetchError TypeError)
       (requested (fetch_request (self (Demo.start (JStr "a@b.c"))))
                  (Demo.start (JStr "a@b.c")))).
Proof.
  apply (fetch_aborts_on_malformed_message
           (Demo.env (Demo.inbox [JObj [("content", JStr "hello"); ("html_content", JNull)];
                                  Demo.mail None_ "Your code is 222222"]))
           None (Demo.start (JStr "a@b.c")) []
           (JObj [("content", JStr "hello"); ("html_content", JNull)])
           [Demo.mail None_ "Your code is 222222"]).
  - reflexivity.
  - intros p [].
  - split; [intros st0; reflexivity | right; reflexivity].
Defined.

(** ** The time filter *)

Lemma stale_state E since_time msg st : snd (stale E since_time msg st) = st.
Proof.
  apply (preserves_stale E (fun st0 st1 => st1 = st0)); [reflexivity | congruence].
Qed.

(** X9.  The time filter skips a message if and only if a [since_time] is
    given and the message is an object whose [created_at] is a non-empty
    string that parses to a time before it.  By itself the filter changes
    nothing and logs nothing, also when the timestamp does not parse; with
    no [since_time] it lets every message through. *)
Theorem message_skipped_iff E since_time msg st :
  (fst (stale E since_time msg st) = Return true <->
   exists t0 fields s t,
     since_time = Some t0 /\ msg = JObj fields /\
     lookup "created_at" fields = Some (JStr s) /\ s <> ""%string /\
     strptime E s = Some t /\ before E t t0 = Some true) /\
  snd (stale E since_time msg st) = st /\
  stale E None msg st = (Return false, st).
Proof.
  split; [| split; [apply stale_state | reflexivity]].
  split.
  - unfold stale. destruct since_time as [t0 |]; [| discriminate].
    unfold py_get. destruct msg as [| b | n | s | items | fields]; try discriminate.
    destruct (lookup "created_at" fields) as [[| b | n | s | items | fs] |] eqn:Hl;
      step; try discriminate;
      try (destruct b; discriminate);
      try (destruct (n =? 0); discriminate);
      try (destruct items; discriminate);
      try (destruct fs; discriminate).
    destruct (s =? "")%string eqn:Hs; step; [discriminate |].
    destruct (strptime E s) as [t |] eqn:Hparse; step; [| discriminate].
    destruct (before E t t0) as [[] |] eqn:Hb; step; try discriminate.
    intros _. exists t0, fields, s, t. apply String.eqb_neq in Hs. repeat split; assumption.
  - intros [t0 [fields [s [t [Hsince [Hmsg [Hl [Hs [Hparse Hb]]]]]]]]]. subst.
    unfold stale, py_get. rewrite Hl. step. apply String.eqb_neq in Hs. rewrite Hs. step.
    rewrite Hparse. step. rewrite Hb. reflexivity.
Qed.

(** ** What a registration stores *)

Lemma read_registration_stores res st address :
  granted (Answers res) = Some address ->
  read_registration res st
  = (Return (Some true), logged info (MsgEmailGenerated address) (with_email address st)).
Proof.
  unfold granted. intros H.
  destruct (status_code res =? 200) eqn:Hstatus; [| discriminate].
  destruct (body res) as [[| b | n | s | items | fields] |] eqn:Hbody; try discriminate.
  destruct (lookup "success" fields) as [v |] eqn:Hsuccess; [| discriminate].
  destruct (truthy v) eqn:Hv; [| discriminate].
  destruct (lookup "data" fields) as [[| b | n | s | items | data] |] eqn:Hdata;
    try discriminate.
  unfold read_registration, res_json, py_get, py_getitem.
  rewrite Hstatus, Hbody, bind_ret, Hsuccess, bind_ret, Hv, Hdata, bind_ret, H, bind_ret.
  rewrite bind_set_email, bind__log. reflexivity.
Qed.

Lemma read_registration_true res st :
  fst (read_registration res st) = Return (Some true) -> granted (Answers res) <> None.
Proof.
  unfold granted, read_registration. intros H.
  destruct (status_code res =? 200); [| rewrite bind__log in H; discriminate].
  unfold res_json in H. destruct (body res) as [[| b | n | s | items | fields] |];
    try (rewrite bind_raise in H; discriminate);
    try (rewrite bind_ret in H; unfold py_get in H; rewrite bind_raise in H; discriminate).
  rewrite bind_ret in H. unfold py_get in H.
  assert (Hfalsy : (match lookup "error" fields with
                    | Some x => ret x
                    | None => ret None_
                    end = ret (match lookup "error" fields with
                               | Some x => x
                               | None => None_
                               end))).
  { destruct (lookup "error" fields); reflexivity. }
  rewrite Hfalsy in H. clear Hfalsy.
  destruct (lookup "success" fields) as [v |]; rewrite bind_ret in H;
    [| cbn [None_ truthy] in H; rewrite bind_ret, bind__log in H; discriminate].
  destruct (truthy v); [| rewrite bind_ret, bind__log in H; discriminate].
  unfold py_getitem in H.
  destruct (lookup "data" fields) as [[| b | n | s | items | data] |];
    try (rewrite bind_raise in H; discriminate);
    try (rewrite bind_ret, bind_raise in H; discriminate).
  rewrite bind_ret in H.
  destruct (lookup "email" data) as [address |]; [discriminate |].
  rewrite bind_raise in H. discriminate.
Qed.

Lemma read_registration_granted res st :
  match granted (Answers res) with
  | Some address =>
      read_registration res st
      = (Return (Some true), logged info (MsgEmailGenerated address) (with_email address st))
  | None => fst (read_registration res st) <> Return (Some true)
  end.
Proof.
  destruct (granted (Answers res)) as [address |] eqn:Hg.
  - apply read_registration_stores. exact Hg.
  - intros H. apply (read_registration_true res st H). exact Hg.
Qed.

(** The result of a registration is decided by [granted]. *)
Lemma register_account_granted E domain st :
  exists st',
    register_account E domain st
    = (Return match granted (provider E (requests_made st)
                               (registration_request E domain st)) with
              | Some _ => true
              | None => false
              end, st') /\
    self st'
    = match granted (provider E (requests_made st) (registration_request E domain st)) with
      | Some address =>
          mkClient (base_url (self st)) (api_key (self st)) (log_callback (self st)) address
      | None => self st
      end.
Proof.
  unfold register_account. rewrite bind_get_self. cbv zeta.
  destruct (send_registration_run E domain st) as [st1 [evs1 [Hsend [Hself1 _]]]].
  destruct (provider E (requests_made st) (registration_request E domain st)) as [e | res].
  - erewrite bind_Return;
      [| erewrite try_except_Raise;
         [| apply bind_Raise; exact Hsend | reflexivity];
         rewrite bind__log; reflexivity].
    eexists. split; [reflexivity |]. cbn [granted logged self]. exact Hself1.
  - pose proof (read_registration_granted res st1) as Hgranted.
    destruct (granted (Answers res)) as [address |].
    + erewrite bind_Return;
        [| eapply try_except_Return; rewrite (bind_Return _ _ _ _ _ Hsend); exact Hgranted].
      eexists. split; [reflexivity |]. cbn [logged with_email self]. rewrite Hself1. reflexivity.
    + destruct (read_registration_run res st1)
        as [o [st2 [evs2 [Hread [_ [_ [_ Ho]]]]]]].
      rewrite Hread in Hgranted. cbn [fst] in Hgranted.
      assert (Hbody : (res0 <- send_registration E (base_url (self st) ++ "/api/generate-email")
                                 domain ;;
                       read_registration res0) st = (o, st2)).
      { rewrite (bind_Return _ _ _ _ _ Hsend). exact Hread. }
      destruct o as [[b |] | e].
      * destruct Ho as [Hb _]. subst b. contradiction.
      * destruct Ho as [Hself2 _].
        erewrite bind_Return; [| eapply try_except_Return; exact Hbody].
        eexists. split; [reflexivity |]. congruence.
      * erewrite bind_Return;
          [| erewrite try_except_Raise; [| exact Hbody | reflexivity];
             rewrite bind__log; reflexivity].
        eexists. split; [reflexivity |]. cbn [logged self]. congruence.
Qed.

(** X10.  [register_account] returns [True] exactly when the provider
    answers 200 with a JSON object whose [success] is truthy and whose
    [data] is an object with an [email]; it then stores that value as the
    address, whatever it is, and changes nothing else of the client.  In
    every other case, a truthy [success] without [data] or [email]
    included, it returns [False] and the client is as it was. *)
Theorem register_account_result E domain st :
  exists st',
    register_account E domain st
    = (Return match granted (provider E (requests_made st)
                               (registration_request E domain st)) with
              | Some _ => true
              | None => false
              end, st') /\
    base_url (self st') = base_url (self st) /\
    api_key (self st') = api_key (self st) /\
    log_callback (self st') = log_callback (self st) /\
    email (self st')
    = match granted (provider E (requests_made st) (registration_request E domain st)) with
      | Some address => address
      | None => email (self st)
      end.
Proof.
  destruct (register_account_granted E domain st) as [st' [Hrun Hself]].
  exists st'. split; [exact Hrun |]. rewrite Hself.
  destruct (granted _); repeat split; reflexivity.
Qed.

Lemma poll_without_address_run E timeout interval since_time st :
  truthy (email (self st)) = false ->
  poll_for_code E timeout interval since_time st = (Return None, logged error MsgNoEmail st).
Proof.
  intros Habs. unfold poll_for_code. rewrite bind_get_self, Habs. cbn [negb].
  rewrite bind__log. reflexivity.
Qed.

(** X11.  Registration and polling together: once a registration has
    stored an address, every request of a following [poll_for_code] asks
    [/api/emails] for that address; and when the provider has granted an
    address that is falsy (the empty string, say), the registration has
    returned [True] and the following [poll_for_code] returns [None]
    without a request, as for a client that never registered. *)
Theorem poll_after_registration E domain st address timeout interval since_time :
  granted (provider E (requests_made st) (registration_request E domain st)) = Some address ->
  fst (register_account E domain st) = Return true /\
  (truthy address = true ->
   exists evs,
     trace (snd (poll_for_code E timeout interval since_time
                   (snd (register_account E domain st))))
     = (trace (snd (register_account E domain st)) ++ evs)%list /\
     forall r, In r (requests_of evs) ->
       req_method r = "GET" /\
       req_url r = (base_url (self st) ++ "/api/emails")%string /\
       req_params r = Some [("email", address)]) /\
  (truthy address = false ->
   poll_for_code E timeout interval since_time (snd (register_account E domain st))
   = (Return None, logged error MsgNoEmail (snd (register_account E domain st)))).
Proof.
  intros Hgranted.
  destruct (register_account_granted E domain st) as [st1 [Hrun Hself]].
  rewrite Hgranted in Hrun, Hself. rewrite Hrun. cbn [fst snd].
  split; [reflexivity |]. split.
  - intros _.
    destruct (poll_for_code_preserves E since_time polling polling_refl polling_trans
                (fun lvl m st0 => polling_quiet_event (EvLog lvl m) st0 eq_refl)
                (fun s st0 => polling_quiet_event (EvSleep s) st0 eq_refl)
                (polling_fetch E since_time) timeout interval st1)
      as [_ [_ [evs [Ht [Hf _]]]]].
    exists evs. split; [exact Ht |]. intros r Hr.
    rewrite Forall_forall in Hf. rewrite (Hf r Hr), Hself. repeat split.
  - intros Hfalsy. apply poll_without_address_run. rewrite Hself. exact Hfalsy.
Qed.

Lemma poll_after_registration_witness :
  fst (register_account (Demo.env (Demo.gives (JStr ""))) None (Demo.start None_))
    = Return true /\
  poll_for_code (Demo.env (Demo.gives (JStr ""))) 12 4 None
    (snd (register_account (Demo.env (Demo.gives (JStr ""))) None (Demo.start None_)))
  = (Return None,
     logged error MsgNoEmail
       (snd (register_account (Demo.env (Demo.gives (JStr ""))) None (Demo.start None_)))).
Proof.
  destruct (poll_after_registration (Demo.env (Demo.gives (JStr ""))) None (Demo.start None_)
              (JStr "") 12 4 None eq_refl) as [Htrue [_ Hfalsy]].
  split; [exact Htrue | apply Hfalsy; reflexivity].
Defined.

(** ** Requests and headers *)


(** ** Intervals that are not positive *)



(** ** The constructor *)

Lemma rstrip_list_dropped chars l :
  exists dropped,
    l = (rstrip_list chars l ++ dropped)%list /\
    forallb (fun c => existsb (Ascii.eqb c) chars) dropped = true.
Proof.
  induction l as [| c rest [dropped [Hrest Hall]]]; [exists []; split; reflexivity |].
  cbn [rstrip_list]. destruct (rstrip_list chars rest) as [| x kept].
  - cbn [app] in Hrest. subst rest.
    destruct (existsb (Ascii.eqb c) chars) eqn:Hc.
    + exists (c :: dropped). split; [reflexivity |]. cbn [forallb]. rewrite Hc, Hall. reflexivity.
    + exists dropped. split; [reflexivity | exact Hall].
  - exists dropped. split; [| exact Hall]. cbn [app]. rewrite Hrest at 1. reflexivity.
Qed.

Lemma rstrip_list_last chars l :
  forall pre x, rstrip_list chars l = (pre ++ [x])%list -> existsb (Ascii.eqb x) chars = false.
Proof.
  induction l as [| c rest IH]; intros pre x H; cbn [rstrip_list] in H.
  - destruct pre; discriminate.
  - destruct (rstrip_list chars rest) as [| y kept].
    + destruct (existsb (Ascii.eqb c) chars) eqn:Hc; [destruct pre; discriminate |].
      destruct pre as [| p pre]; [| destruct pre; discriminate].
      inversion H. subst x. exact Hc.
    + destruct pre as [| p pre]; [discriminate |].
      inversion H. subst p. apply (IH pre x). assumption.
Qed.

Lemma string_of_list_ascii_app (a b : list ascii) :
  string_of_list_ascii (a ++ b) = (string_of_list_ascii a ++ string_of_list_ascii b)%string.
Proof. induction a as [| c a IH]; [reflexivity |]. cbn. rewrite IH. reflexivity. Qed.

Lemma list_ascii_of_string_app (a b : string) :
  list_ascii_of_string (a ++ b) = (list_ascii_of_string a ++ list_ascii_of_string b)%list.
Proof. induction a as [| c a IH]; [reflexivity |]. cbn. rewrite IH. reflexivity. Qed.

Lemma all_slashes (l : list ascii) :
  forallb (fun c => existsb (Ascii.eqb c) ["/"%char]) l = true ->
  l = repeat "/"%char (List.length l).
Proof.
  induction l as [| c l IH]; [reflexivity |]. cbn [forallb existsb]. intros H.
  apply andb_prop in H. destruct H as [Hc Hl]. rewrite orb_false_r in Hc.
  apply Ascii.eqb_eq in Hc. subst c. cbn [List.length repeat]. rewrite <- IH by exact Hl.
  reflexivity.
Qed.

(** X12.  The constructor stores the base address without its trailing
    slashes, and only those are gone: the stored address never ends in a
    slash, so the paths appended to it are joined by one slash.  A client
    starts with no address, and polling it returns [None] without a
    request, with the error logged. *)
Theorem constructor_normalises_base_url strip base key callback :
  email (__init__ strip base key callback) = None_ /\
  (exists k,
     base = (base_url (__init__ strip base key callback)
             ++ string_of_list_ascii (repeat "/"%char k))%string) /\
  (forall s, base_url (__init__ strip base key callback) <> (s ++ "/")%string) /\
  rstrip (base_url (__init__ strip base key callback)) "/"
    = base_url (__init__ strip base key callback) /\
  (forall E timeout interval since_time,
     poll_for_code E timeout interval since_time (fresh (__init__ strip base key callback))
     = (Return None, logged error MsgNoEmail (fresh (__init__ strip base key callback)))).
Proof.
  cbn [__init__ email base_url]. split; [reflexivity |].
  assert (Hlast : forall s, rstrip base "/" <> (s ++ "/")%string).
  { intros s H. unfold rstrip in H.
    apply (f_equal list_ascii_of_string) in H.
    rewrite list_ascii_of_string_of_list_ascii, list_ascii_of_string_app in H.
    apply rstrip_list_last in H. discriminate. }
  split; [| split; [exact Hlast | split]].
  - unfold rstrip.
    destruct (rstrip_list_dropped (list_ascii_of_string "/") (list_ascii_of_string base))
      as [dropped [Heq Hall]].
    exists (List.length dropped).
    rewrite <- (all_slashes dropped Hall), <- string_of_list_ascii_app, <- Heq.
    symmetry. apply string_of_list_ascii_of_string.
  - unfold rstrip at 1.
    destruct (rstrip_list_dropped (list_ascii_of_string "/")
                (list_ascii_of_string (rstrip base "/"))) as [dropped [Heq Hall]].
    destruct dropped as [| d dropped].
    + rewrite app_nil_r in Heq. rewrite <- Heq. apply string_of_list_ascii_of_string.
    + exfalso. rewrite (all_slashes _ Hall) in Heq. cbn [List.length repeat] in Heq.
      apply (f_equal string_of_list_ascii) in Heq.
      rewrite string_of_list_ascii_of_string in Heq.
      destruct (exists_last (l := "/"%char :: repeat "/"%char (List.length dropped)))
        as [front [final Hfinal]]; [discriminate |].
      assert (Hf : final = "/"%char).
      { assert (Hin : In final ("/"%char :: repeat "/"%char (List.length dropped))).
        { rewrite Hfinal. apply in_or_app. right. left. reflexivity. }
        destruct Hin as [Hin | Hin]; [symmetry; exact Hin |].
        apply repeat_spec in Hin. exact Hin. }
      rewrite Hfinal, Hf, app_assoc, string_of_list_ascii_app in Heq.
      apply (Hlast _ Heq).
  - intros E timeout interval since_time. apply poll_without_address_run. reflexivity.
Qed.

(** ** Answers a fetch cannot scan *)

(** X15.  When the provider answers 200 with a truthy [success] and
    [emails] is truthy and not a list, the fetch returns [None] with the
    exception logged and without a call of the extractor: [TypeError] for
    a number or [true], which cannot be iterated, [AttributeError] for a
    string or an object, whose characters or keys are not messages. *)
Theorem fetch_with_emails_not_a_list E since_time st emails :
  served (provider E (requests_made st) (fetch_request (self st))) = Some emails ->
  truthy emails = true ->
  match emails with JArr _ => False | _ => True end ->
  _fetch_verification_code E since_time st
  = (Return None,
     logged error
       (MsgFetchError match emails with
                      | JBool _ | JNum _ | JNull => TypeError
                      | _ => AttributeError
                      end)
       (requested (fetch_request (self st)) st)).
Proof.
  intros Hserved Htruthy Hshape.
  rewrite (_fetch_served E since_time st _ Hserved), Htruthy.
  destruct emails as [| b | n | s | items | fields]; try discriminate; try contradiction;
    cbn [py_iter]; try reflexivity.
  - destruct s as [| c s]; [discriminate |]. rewrite bind_ret.
    cbn [list_ascii_of_string map for_in]. rewrite bind_case.
    pose proof (scan_message_not_object E since_time (JStr (String c EmptyString))
                  (requested (fetch_request (self st)) st)) as H.
    cbv beta iota in H. rewrite H. reflexivity.
  - destruct fields as [| kv fields]; [discriminate |]. rewrite bind_ret.
    cbn [map for_in]. rewrite bind_case.
    pose proof (scan_message_not_object E since_time (JStr (fst kv))
                  (requested (fetch_request (self st)) st)) as H.
    cbv beta iota in H. rewrite H. reflexivity.
Qed.

Lemma fetch_with_emails_not_a_list_witness :
  _fetch_verification_code
    (Demo.env (fun _ _ =>
       Answers (mkResponse 200
         (Some (JObj [("success", JBool true);
                      ("data", JObj [("emails", JStr "none")])])))))
    None (Demo.start (JStr "a@b.c"))
  = (Return None,
     logged error (MsgFetchError AttributeError)
       (requested (fetch_request (self (Demo.start (JStr "a@b.c"))))
                  (Demo.start (JStr "a@b.c")))).
Proof.
  apply (fetch_with_emails_not_a_list
           (Demo.env (fun _ _ =>
              Answers (mkResponse 200
                (Some (JObj [("success", JBool true);
                             ("data", JObj [("emails", JStr "none")])])))))
           None (Demo.start (JStr "a@b.c")) (JStr "none")).
  - reflexivity.
  - reflexivity.
  - exact I.
Defined.

(** X16.  How a fetch takes the provider's refusals.  A status other than
    200, or a JSON object whose [success] is missing or falsy, gives [None]
    in silence: nothing is logged after the request.  A body that is not
    JSON, or JSON that is not an object, gives [None] with the exception
    logged as an error. *)
Theorem fetch_refused E since_time st res :
  provider E (requests_made st) (fetch_request (self st)) = Answers res ->
  (status_code res <> 200 ->
   _fetch_verification_code E since_time st
   = (Return None, requested (fetch_request (self st)) st)) /\
  (status_code res = 200 ->
   match body res with
   | None =>
       _fetch_verification_code E since_time st
       = (Return None,
          logged error (MsgFetchError JSONDecodeError) (requested (fetch_request (self st)) st))
   | Some (JObj fields) =>
       match lookup "success" fields with
       | Some v =>
           truthy v = false ->
           _fetch_verification_code E since_time st
           = (Return None, requested (fetch_request (self st)) st)
       | None =>
           _fetch_verification_code E since_time st
           = (Return None, requested (fetch_request (self st)) st)
       end
   | Some _ =>
       _fetch_verification_code E since_time st
       = (Return None,
          logged error (MsgFetchError AttributeError) (requested (fetch_request (self st)) st))
   end).
Proof.
  intros Hp. unfold fetch_request in Hp.
  assert (Hrun : forall (k : response -> M (option string)),
            (c <- get_self ;;
             try_except Exception
               (res0 <- _request E "GET" (base_url c ++ "/api/emails") None
                          (Some [("email", email c)]) ;; k res0)
               (fun e => _log error (MsgFetchError e) ;; ret None)) st
            = match k res (requested (fetch_request (self st)) st) with
              | (Return r, st2) => (Return r, st2)
              | (Raise e, st2) => (Return None, logged error (MsgFetchError e) st2)
              end).
  { intros k. rewrite bind_get_self. unfold try_except, Exception.
    rewrite (bind_Return _ _ _ _ _ (_request_answered E _ _ _ _ st res Hp)).
    fold (fetch_request (self st)).
    destruct (k res (requested (fetch_request (self st)) st)) as [[r | e] st2];
      [reflexivity | rewrite bind__log; reflexivity]. }
  unfold _fetch_verification_code. rewrite Hrun. split.
  - intros Hstatus. apply Z.eqb_neq in Hstatus. rewrite Hstatus. reflexivity.
  - intros Hstatus. apply Z.eqb_eq in Hstatus. rewrite Hstatus. cbn [negb].
    unfold res_json.
    destruct (body res) as [[| b | n | s | items | fields] |]; try reflexivity.
    rewrite bind_ret. cbn [py_get].
    destruct (lookup "success" fields) as [v |]; rewrite bind_ret.
    + intros Hv. rewrite Hv. reflexivity.
    + reflexivity.
Qed.

Lemma fetch_refused_witness :
  _fetch_verification_code (Demo.env Demo.down) None (Demo.start (JStr "a@b.c"))
  = (Return None,
     requested (fetch_request (self (Demo.start (JStr "a@b.c")))) (Demo.start (JStr "a@b.c"))).
Proof.
  destruct (fetch_refused (Demo.env Demo.down) None (Demo.start (JStr "a@b.c"))
              (mkResponse 500 None) eq_refl) as [Hstatus _].
  apply Hstatus. discriminate.
Defined.

(** ** Further runs in the concrete world *)

Lemma message_skipped_iff_witness :
  fst (stale (Demo.env Demo.down) (Some 20251114103500)
         (Demo.mail (JStr "2025-11-14 10:30:00") "Your code is 111111")
         (Demo.start (JStr "a@b.c")))
  = Return true.
Proof.
  destruct (message_skipped_iff (Demo.env Demo.down) (Some 20251114103500)
              (Demo.mail (JStr "2025-11-14 10:30:00") "Your code is 111111")
              (Demo.start (JStr "a@b.c"))) as [[_ Hskip] _].
  apply Hskip.
  exists 20251114103500,
         [("created_at", JStr "2025-11-14 10:30:00");
          ("content", JStr "Your code is 111111"); ("html_content", JStr "")],
         "2025-11-14 10:30:00", 20251114103000.
  repeat split; try reflexivity. discriminate.
Defined.

